(** * hbrs_object_reconstruction: the FixOcclusions service handler

    A shallow embedding of [object_reconstruction_node::FixOcclusions]
    (ros/nodes/object_reconstruction.cpp) and the properties of its outward
    result, of the collaborator calls it makes and of the instance fields it
    leaves behind.

    The handler is orchestration code: it owns four data fields and calls
    into the accumulator, the candidate extractor and the static helper
    functions.  Those collaborators are parameters of the development; the
    handler itself is a program in a small state monad over the node's
    fields, the outside world and a log of the collaborator calls made.  It
    comes twice: for collaborators that return, and for collaborators that
    may throw, where an exception leaves the handler at the call. *)

From Stdlib Require Import ZArith List String Bool Lia.
From Stdlib Require Import Decimal DecimalString DecimalZ DecimalPos.
Import ListNotations.

Local Open Scope Z_scope.

(** ** Strings *)

(** [std::to_string(int)]: the decimal rendering, with a leading minus sign
    for a negative value. *)
Definition to_string (i : Z) : string := NilZero.string_of_int (Z.to_int i).

(** ** Service messages *)

(** [FixOcclusion::Request] carries no field. *)
Inductive Request : Type := EmptyRequest.

(** [FixOcclusion::Response]. *)
Record Response : Type := { success : bool }.

Section Model.

(** The PCL types are opaque to the handler: it only moves their values
    between collaborators.  [World] stands for everything outside the four
    data fields: the sensor stream, the file system, the ROS topics and the
    internal state of the collaborator objects. *)
Context {PointCloud PCLMesh World : Type}.

(** *** Collaborators *)

(** The functions the handler calls, with the argument and result types
    visible at the call sites.  Each one may read and change the world; a
    call made as a statement returns the new world only.  Every call
    returns here: these are the runs of the handler in which no collaborator
    throws.  The runs in which one does are those of
    [Throwing.FixOcclusions] further down, which is this handler when none
    does ([never_throwing_service_call]). *)
Record Collaborators : Type := {
  (* m_point_cloud_accumulator.AccumulatePointClouds( n ) *)
  AccumulatePointClouds : Z -> World -> PointCloud * World;
  (* m_object_candidate_extractor.ExtractCandidateObjects( name, cloud ) *)
  ExtractCandidateObjects : string -> PointCloud -> World -> list PointCloud * World;
  (* m_object_candidate_extractor.PublishObjectCandidates( candidates ) *)
  PublishObjectCandidates : list PointCloud -> World -> World;
  (* HelperFunctions::WriteToPCD( name, cloud ) *)
  WriteToPCD : string -> PointCloud -> World -> World;
  (* HelperFunctions::WriteMultipleToPCD( name, candidates ) *)
  WriteMultipleToPCD : string -> list PointCloud -> World -> World;
  (* HelperFunctions::ConvertCloudToMesh( name, cloud ) *)
  ConvertCloudToMesh : string -> PointCloud -> World -> PCLMesh * World
}.

(** One entry of the call log: the collaborator function, its arguments and
    the value it returned.  The last two constructors belong to the
    [OcclusionRepair] member: [DetectOcclusion] has the signature of the
    call at line 83 of the source; [EvRepair] is modelled from the spec, the
    operation Repair of its section 4.4, which the source never names. *)
Inductive Event : Type :=
| EvAccumulatePointClouds (count : Z) (cloud : PointCloud)
| EvWriteToPCD (name : string) (cloud : PointCloud)
| EvExtractCandidateObjects (name : string) (cloud : PointCloud)
                            (candidates : list PointCloud)
| EvPublishObjectCandidates (candidates : list PointCloud)
| EvWriteMultipleToPCD (name : string) (candidates : list PointCloud)
| EvConvertCloudToMesh (name : string) (cloud : PointCloud) (mesh : PCLMesh)
| EvDetectOcclusion (mesh : PCLMesh) (name : string)
| EvRepair (mesh : PCLMesh) (repaired : PCLMesh).

(** *** The node *)

(** The data fields of [object_reconstruction_node].  The collaborator
    objects, the node handle, the service server and the publisher are part
    of the world. *)
Record object_reconstruction_node : Type := {
  m_output_directory : string;
  m_object_candidates : list PointCloud;
  m_resulting_cloud : PointCloud;
  m_operating_mesh : PCLMesh
}.

Definition set_m_object_candidates (v : list PointCloud)
           (n : object_reconstruction_node) : object_reconstruction_node :=
  {| m_output_directory := m_output_directory n;
     m_object_candidates := v;
     m_resulting_cloud := m_resulting_cloud n;
     m_operating_mesh := m_operating_mesh n |}.

Definition set_m_resulting_cloud (v : PointCloud)
           (n : object_reconstruction_node) : object_reconstruction_node :=
  {| m_output_directory := m_output_directory n;
     m_object_candidates := m_object_candidates n;
     m_resulting_cloud := v;
     m_operating_mesh := m_operating_mesh n |}.

Definition set_m_operating_mesh (v : PCLMesh)
           (n : object_reconstruction_node) : object_reconstruction_node :=
  {| m_output_directory := m_output_directory n;
     m_object_candidates := m_object_candidates n;
     m_resulting_cloud := m_resulting_cloud n;
     m_operating_mesh := v |}.

(** *** The state monad of a service call *)

Record Machine : Type := {
  node : object_reconstruction_node;
  world : World;
  calls : list Event
}.

Definition M (A : Type) : Type := Machine -> A * Machine.

Definition ret {A : Type} (a : A) : M A := fun m => (a, m).

Definition bind {A B : Type} (c : M A) (k : A -> M B) : M B :=
  fun m => k (fst (c m)) (snd (c m)).

(** Reading and writing a field of [this]. *)
Definition field {A : Type} (proj : object_reconstruction_node -> A) : M A :=
  fun m => (proj (node m), m).

Definition this_m_output_directory : M string := field m_output_directory.
Definition this_m_object_candidates : M (list PointCloud) :=
  field m_object_candidates.
Definition this_m_resulting_cloud : M PointCloud := field m_resulting_cloud.
Definition this_m_operating_mesh : M PCLMesh := field m_operating_mesh.

Definition assign (upd : object_reconstruction_node -> object_reconstruction_node)
  : M unit :=
  fun m => (tt, {| node := upd (node m); world := world m; calls := calls m |}).

(** A collaborator call that returns a value: the world moves on and the
    call is logged together with its result. *)
Definition invoke {A : Type} (f : World -> A * World) (ev : A -> Event) : M A :=
  fun m =>
    (fst (f (world m)),
     {| node := node m;
        world := snd (f (world m));
        calls := calls m ++ [ev (fst (f (world m)))] |}).

(** A collaborator call made as a statement. *)
Definition perform (f : World -> World) (ev : Event) : M unit :=
  fun m =>
    (tt, {| node := node m; world := f (world m); calls := calls m ++ [ev] |}).

End Model.

Arguments Collaborators : clear implicits.
Arguments Event : clear implicits.
Arguments object_reconstruction_node : clear implicits.
Arguments Machine : clear implicits.

Declare Scope driver_scope.
Delimit Scope driver_scope with driver.
Notation "x <- c ;; k" := (bind c (fun x => k))
  (at level 61, c at next level, right associativity) : driver_scope.
Notation "c ;; k" := (bind c (fun _ => k))
  (at level 61, right associativity) : driver_scope.

Section Handler.

Context {PointCloud PCLMesh World : Type}.
Variable C : Collaborators PointCloud PCLMesh World.

Abbreviation Node := (object_reconstruction_node PointCloud PCLMesh).
Abbreviation Run := (@M PointCloud PCLMesh World).

Local Open Scope driver_scope.

(** Lines 80 and 81: one pass of the loop body for counter value [i] and
    [candidate], the element [m_object_candidates[i]].  The pass overwrites
    [m_operating_mesh]; the call to [DetectOcclusion] at line 83 is
    commented out in the source and so absent here. *)
Definition mesh_pass (i : Z) (candidate : PointCloud) : Run unit :=
  output_directory <- this_m_output_directory ;;
  let candidate_name :=
    (output_directory ++ "03-ObjectCandidate-" ++ to_string i)%string in
  mesh <- invoke (ConvertCloudToMesh C candidate_name candidate)
                 (EvConvertCloudToMesh candidate_name candidate) ;;
  assign (set_m_operating_mesh mesh).

(** Lines 78 to 84: the loop over [m_object_candidates].  The counter [i]
    is the [int] of the source, counting up from 0; [rest] is the part of
    the vector not yet visited, so that its head is
    [m_object_candidates[i]] and the loop ends when [i] reaches [size()].
    The vector is not changed inside the loop.  The counter is an unbounded
    integer here: the rendering is exact for every vector of at most
    2^31 - 1 elements, the values an [int] can count. *)
Fixpoint mesh_loop (i : Z) (rest : list PointCloud) : Run unit :=
  match rest with
  | [] => ret tt
  | candidate :: rest' =>
      mesh_pass i candidate ;;
      mesh_loop (i + 1) rest'
  end.

(** Lines 60 to 94.  [response] is passed by reference: the handler returns
    its boolean result together with the response it leaves behind. *)
Definition FixOcclusions (request : Request) (response : Response)
  : Run (bool * Response) :=
  output_directory <- this_m_output_directory ;;
  let candidate_name := (output_directory ++ "01-AccumulatedPointCloud")%string in
  cloud <- invoke (AccumulatePointClouds C 1) (EvAccumulatePointClouds 1) ;;
  assign (set_m_resulting_cloud cloud) ;;

  resulting_cloud <- this_m_resulting_cloud ;;
  perform (WriteToPCD C candidate_name resulting_cloud)
          (EvWriteToPCD candidate_name resulting_cloud) ;;

  output_directory <- this_m_output_directory ;;
  let candidate_name := (output_directory ++ "00-Debugging")%string in
  resulting_cloud <- this_m_resulting_cloud ;;
  candidates <- invoke (ExtractCandidateObjects C candidate_name resulting_cloud)
                       (EvExtractCandidateObjects candidate_name resulting_cloud) ;;
  assign (set_m_object_candidates candidates) ;;

  object_candidates <- this_m_object_candidates ;;
  if negb (Nat.eqb (List.length object_candidates) 0) then
    perform (PublishObjectCandidates C object_candidates)
            (EvPublishObjectCandidates object_candidates) ;;

    output_directory <- this_m_output_directory ;;
    let candidate_name := (output_directory ++ "02-ObjectCandidates")%string in
    perform (WriteMultipleToPCD C candidate_name object_candidates)
            (EvWriteMultipleToPCD candidate_name object_candidates) ;;

    object_candidates <- this_m_object_candidates ;;
    mesh_loop 0 object_candidates ;;

    let response := {| success := true |} in
    ret (success response, response)
  else
    let response := {| success := false |} in
    ret (success response, response).

(** *** One service call, seen from outside *)

(** The machine a call starts from: the node as the previous call left it,
    the world, and an empty call log. *)
Definition start (n : Node) (w : World) : Machine PointCloud PCLMesh World :=
  {| node := n; world := w; calls := [] |}.

Definition service_call (n : Node) (w : World) (response : Response)
  : (bool * Response) * Machine PointCloud PCLMesh World :=
  FixOcclusions EmptyRequest response (start n w).

(** The value the handler returns to the transport layer. *)
Definition returned (n : Node) (w : World) (response : Response) : bool :=
  fst (fst (service_call n w response)).

(** The response as the handler leaves it. *)
Definition responded (n : Node) (w : World) (response : Response) : Response :=
  snd (fst (service_call n w response)).

(** The node after the call. *)
Definition node_after (n : Node) (w : World) (response : Response) : Node :=
  node (snd (service_call n w response)).

(** The world after the call. *)
Definition world_after (n : Node) (w : World) (response : Response) : World :=
  world (snd (service_call n w response)).

(** The collaborator calls made, in order. *)
Definition trace (n : Node) (w : World) (response : Response)
  : list (Event PointCloud PCLMesh) :=
  calls (snd (service_call n w response)).

(** The accumulated cloud and the candidate sequence of a call: what the
    accumulator and the extractor returned to it. *)
Definition accumulated (w : World) : PointCloud :=
  fst (AccumulatePointClouds C 1 w).

Definition extraction (n : Node) (w : World) : list PointCloud * World :=
  let w1 := snd (AccumulatePointClouds C 1 w) in
  let w2 := WriteToPCD C (m_output_directory n ++ "01-AccumulatedPointCloud")%string
                       (accumulated w) w1 in
  ExtractCandidateObjects C (m_output_directory n ++ "00-Debugging")%string
                          (accumulated w) w2.

Definition extracted (n : Node) (w : World) : list PointCloud :=
  fst (extraction n w).

(** The machine once line 69 has run: both cloud fields assigned, three
    calls logged. *)
Definition after_extraction (n : Node) (w : World)
  : Machine PointCloud PCLMesh World :=
  {| node := set_m_object_candidates (extracted n w)
               (set_m_resulting_cloud (accumulated w) n);
     world := snd (extraction n w);
     calls :=
       [EvAccumulatePointClouds 1 (accumulated w);
        EvWriteToPCD (m_output_directory n ++ "01-AccumulatedPointCloud")%string
                     (accumulated w);
        EvExtractCandidateObjects (m_output_directory n ++ "00-Debugging")%string
                                  (accumulated w) (extracted n w)] |}.

(** The machine on entry to the loop of line 78: the candidates published
    and written. *)
Definition loop_entry (n : Node) (w : World)
  : Machine PointCloud PCLMesh World :=
  {| node := node (after_extraction n w);
     world :=
       WriteMultipleToPCD C (m_output_directory n ++ "02-ObjectCandidates")%string
         (extracted n w)
         (PublishObjectCandidates C (extracted n w) (snd (extraction n w)));
     calls :=
       calls (after_extraction n w) ++
       [EvPublishObjectCandidates (extracted n w);
        EvWriteMultipleToPCD (m_output_directory n ++ "02-ObjectCandidates")%string
                             (extracted n w)] |}.

(** Two machines the loop cannot tell apart: they differ at most in the
    three fields the handler assigns. *)
Definition alike (m1 m2 : Machine PointCloud PCLMesh World) : Prop :=
  m_output_directory (node m1) = m_output_directory (node m2) /\
  world m1 = world m2 /\
  calls m1 = calls m2.

End Handler.

(** ** Observations on a call log *)

Section Observations.

Context {PointCloud PCLMesh : Type}.

Abbreviation Log := (list (Event PointCloud PCLMesh)).

(** The stages of the pipeline an event belongs to. *)
Definition is_extraction (e : Event PointCloud PCLMesh) : bool :=
  match e with EvExtractCandidateObjects _ _ _ => true | _ => false end.

Definition is_meshing (e : Event PointCloud PCLMesh) : bool :=
  match e with EvConvertCloudToMesh _ _ _ => true | _ => false end.

Definition is_occlusion (e : Event PointCloud PCLMesh) : bool :=
  match e with
  | EvDetectOcclusion _ _ | EvRepair _ _ => true
  | _ => false
  end.

(** The frame counts asked of the accumulator. *)
Fixpoint accumulate_requests (t : Log) : list Z :=
  match t with
  | [] => []
  | EvAccumulatePointClouds count _ :: t' => count :: accumulate_requests t'
  | _ :: t' => accumulate_requests t'
  end.

(** The calls to the mesh builder: name, cloud and the mesh returned. *)
Fixpoint mesh_calls (t : Log) : list (string * PointCloud * PCLMesh) :=
  match t with
  | [] => []
  | EvConvertCloudToMesh name cloud mesh :: t' =>
      (name, cloud, mesh) :: mesh_calls t'
  | _ :: t' => mesh_calls t'
  end.

(** The (name, cloud) pairs handed to the mesh builder, and the meshes it
    returned. *)
Definition mesh_requests (t : Log) : list (string * PointCloud) :=
  map fst (mesh_calls t).

Definition built_meshes (t : Log) : list PCLMesh :=
  map snd (mesh_calls t).

(** The meshes a repair stage returned. *)
Fixpoint repaired_meshes (t : Log) : list PCLMesh :=
  match t with
  | [] => []
  | EvRepair _ repaired :: t' => repaired :: repaired_meshes t'
  | _ :: t' => repaired_meshes t'
  end.

(** The names of the artifacts written through [WriteToPCD] and
    [WriteMultipleToPCD], with what was written. *)
Fixpoint written_clouds (t : Log) : list (string * PointCloud) :=
  match t with
  | [] => []
  | EvWriteToPCD name cloud :: t' => (name, cloud) :: written_clouds t'
  | _ :: t' => written_clouds t'
  end.

Fixpoint written_candidate_sets (t : Log) : list (string * list PointCloud) :=
  match t with
  | [] => []
  | EvWriteMultipleToPCD name candidates :: t' =>
      (name, candidates) :: written_candidate_sets t'
  | _ :: t' => written_candidate_sets t'
  end.

End Observations.

(** ** The vocabulary of the specification *)

(** Modelled from the spec: the repair-mode flag of the configuration surface
    (section 6).  The source has no such flag. *)
Inductive RepairMode : Type := Skip | DetectOnly | DetectAndRepair.

(** Modelled from the spec: the configuration surface of section 6.  Of these
    values the node holds the output directory only; the thresholds would be
    parameters of the collaborators. *)
Record Configuration : Type := {
  output_directory : string;
  frame_count : Z;
  plane_inlier_threshold : Z;
  plane_iteration_cap : Z;
  cluster_distance_threshold : Z;
  cluster_min_size : Z;
  cluster_max_size : Z;
  mesh_min_point_count : Z;
  occlusion_hole_size_threshold : Z;
  repair_mode : RepairMode
}.

(** Modelled from the spec: the terminal per-candidate states of the driver's
    state machine (section 4.5). *)
Inductive CandidateState : Type := MeshBuilt | Repaired | CandidateFailed.

Definition non_failed (s : CandidateState) : bool :=
  match s with CandidateFailed => false | _ => true end.

(** Modelled from the spec: the Reducing state of section 4.5, Success if at
    least one candidate reached a non-failed terminal state, Failed only if
    every candidate failed. *)
Definition Reducing (states : list CandidateState) : bool :=
  existsb non_failed states.

Section Outcomes.

Context {PointCloud PCLMesh : Type}.

(** Which meshes count as the explicitly empty mesh of a degenerate
    candidate. *)
Variable empty_mesh : PCLMesh -> bool.

(** Modelled from the spec: the terminal state a candidate reaches in a
    run that never repairs: [CandidateFailed] for a degenerate candidate
    (its mesh is the empty one), [MeshBuilt] otherwise. *)
Definition terminal_state (mesh : PCLMesh) : CandidateState :=
  if empty_mesh mesh then CandidateFailed else MeshBuilt.

Definition candidate_states (t : list (Event PointCloud PCLMesh))
  : list CandidateState :=
  map terminal_state (built_meshes t).

End Outcomes.

(** The node configured from a configuration value: the output directory is
    the only one of its values a node can hold. *)
Definition configure {PointCloud PCLMesh : Type} (cfg : Configuration)
           (n : object_reconstruction_node PointCloud PCLMesh)
  : object_reconstruction_node PointCloud PCLMesh :=
  {| m_output_directory := output_directory cfg;
     m_object_candidates := m_object_candidates n;
     m_resulting_cloud := m_resulting_cloud n;
     m_operating_mesh := m_operating_mesh n |}.

(** ** A concrete scene

    Small concrete collaborators on which the handler can be run: a sensor
    stream of frames, a support plane at height 0, clusters separated by the
    sign of the first coordinate, and a mesh builder that triangulates a fan
    over three or more points. *)

Module Scene.

Definition Point : Type := (Z * Z * Z)%type.
Definition PointCloud : Type := list Point.

Record PCLMesh : Type := {
  vertices : PointCloud;
  faces : list (nat * nat * nat)
}.

Record World : Type := {
  sensor_stream : list PointCloud;
  insufficient_frames : bool;
  files : list (string * list PointCloud);
  published : list (list PointCloud)
}.

(** The accumulator of this scene always returns: it concatenates the
    requested number of frames, and when the stream holds fewer it returns
    the empty cloud and raises a flag of its own.  The accumulator that
    fails, as section 4.1 of the spec has it, is [FailingScene.accumulate]. *)
Definition accumulate (count : Z) (w : World) : PointCloud * World :=
  let n := Z.to_nat count in
  if (n <=? List.length (sensor_stream w))%nat then
    (List.concat (firstn n (sensor_stream w)),
     {| sensor_stream := skipn n (sensor_stream w);
        insufficient_frames := false;
        files := files w;
        published := published w |})
  else
    ([],
     {| sensor_stream := [];
        insufficient_frames := true;
        files := files w;
        published := published w |}).

Definition write (name : string) (clouds : list PointCloud) (w : World) : World :=
  {| sensor_stream := sensor_stream w;
     insufficient_frames := insufficient_frames w;
     files := files w ++ [(name, clouds)];
     published := published w |}.

Definition on_plane (p : Point) : bool := (snd p =? 0).
Definition left_of_origin (p : Point) : bool := (fst (fst p) <? 0).

(** Remove the support plane, split the rest in two clusters, keep the
    non-empty ones. *)
Definition extract (name : string) (cloud : PointCloud) (w : World)
  : list PointCloud * World :=
  let objects := filter (fun p => negb (on_plane p)) cloud in
  let clusters := [filter left_of_origin objects;
                   filter (fun p => negb (left_of_origin p)) objects] in
  (filter (fun c => negb (Nat.eqb (List.length c) 0)) clusters, w).

Definition publish (candidates : list PointCloud) (w : World) : World :=
  {| sensor_stream := sensor_stream w;
     insufficient_frames := insufficient_frames w;
     files := files w;
     published := published w ++ [candidates] |}.

(** A candidate of fewer than three points is degenerate and yields the
    empty mesh. *)
Definition convert (name : string) (cloud : PointCloud) (w : World)
  : PCLMesh * World :=
  if (List.length cloud <? 3)%nat then
    ({| vertices := []; faces := [] |}, write name [cloud] w)
  else
    ({| vertices := cloud;
        faces := map (fun k => (O, S k, S (S k))) (seq 0 (List.length cloud - 2)) |},
     write name [cloud] w).

Definition empty_mesh (m : PCLMesh) : bool :=
  Nat.eqb (List.length (faces m)) 0.

Definition collaborators : Collaborators PointCloud PCLMesh World :=
  {| AccumulatePointClouds := accumulate;
     ExtractCandidateObjects := extract;
     PublishObjectCandidates := publish;
     WriteToPCD := fun name cloud => write name [cloud];
     WriteMultipleToPCD := write;
     ConvertCloudToMesh := convert |}.

Definition world_of_files (written : list (string * list PointCloud)) : World :=
  {| sensor_stream := [];
     insufficient_frames := false;
     files := written;
     published := [] |}.

(** A freshly constructed node: default-constructed fields, the output
    directory as set by the constructor. *)
Definition fresh (directory : string)
  : object_reconstruction_node PointCloud PCLMesh :=
  {| m_output_directory := directory;
     m_object_candidates := [];
     m_resulting_cloud := [];
     m_operating_mesh := {| vertices := []; faces := [] |} |}.

(** A node as an earlier call may have left it. *)
Definition stale (directory : string) (candidates : list PointCloud)
           (cloud : PointCloud)
  : object_reconstruction_node PointCloud PCLMesh :=
  {| m_output_directory := directory;
     m_object_candidates := candidates;
     m_resulting_cloud := cloud;
     m_operating_mesh := fst (convert "" cloud (world_of_files [])) |}.

Definition world_of (stream : list PointCloud) : World :=
  {| sensor_stream := stream;
     insufficient_frames := false;
     files := [];
     published := [] |}.

(** Frames: a table top with a box to the right of the origin; the same
    with a second, three-point object to the left; a table top with a
    single stray point above it; a bare table top. *)
Definition table : PointCloud := [(0, 0, 0); (1, 0, 0); (0, 1, 0); (-1, 1, 0)].
Definition box : PointCloud := [(1, 1, 1); (2, 1, 1); (1, 2, 1); (2, 2, 2)].
Definition cone : PointCloud := [(-3, 0, 1); (-2, 0, 1); (-3, 1, 2)].
Definition speck : PointCloud := [(-5, 5, 1)].

Definition frame_box : PointCloud := table ++ box.
Definition frame_box_cone : PointCloud := table ++ box ++ cone.
Definition frame_speck : PointCloud := table ++ speck.
Definition frame_box_speck : PointCloud := table ++ box ++ speck.

Definition configuration (frames : Z) (mode : RepairMode) : Configuration :=
  {| output_directory := "/tmp/out/";
     frame_count := frames;
     plane_inlier_threshold := 1;
     plane_iteration_cap := 100;
     cluster_distance_threshold := 1;
     cluster_min_size := 1;
     cluster_max_size := 1000;
     mesh_min_point_count := 3;
     occlusion_hole_size_threshold := 10;
     repair_mode := mode |}.

End Scene.


(** ** Calls replayed, names used, and calls in a row *)

Section Replay.

Context {PointCloud PCLMesh World : Type}.
Variable C : Collaborators PointCloud PCLMesh World.

(** [answers w e w']: in world [w] the collaborator named by [e], called with
    the arguments [e] records, returns the value [e] records and leaves the
    world [w'].  The handler has no collaborator for the two events of the
    occlusion stage, so that nothing answers them. *)
Inductive answers : World -> Event PointCloud PCLMesh -> World -> Prop :=
| answers_AccumulatePointClouds count w :
    answers w
      (EvAccumulatePointClouds count (fst (AccumulatePointClouds C count w)))
      (snd (AccumulatePointClouds C count w))
| answers_WriteToPCD name cloud w :
    answers w (EvWriteToPCD name cloud) (WriteToPCD C name cloud w)
| answers_ExtractCandidateObjects name cloud w :
    answers w
      (EvExtractCandidateObjects name cloud
         (fst (ExtractCandidateObjects C name cloud w)))
      (snd (ExtractCandidateObjects C name cloud w))
| answers_PublishObjectCandidates candidates w :
    answers w (EvPublishObjectCandidates candidates)
      (PublishObjectCandidates C candidates w)
| answers_WriteMultipleToPCD name candidates w :
    answers w (EvWriteMultipleToPCD name candidates)
      (WriteMultipleToPCD C name candidates w)
| answers_ConvertCloudToMesh name cloud w :
    answers w
      (EvConvertCloudToMesh name cloud (fst (ConvertCloudToMesh C name cloud w)))
      (snd (ConvertCloudToMesh C name cloud w)).

(** [replays w t w']: making the calls of the log [t] one after the other,
    starting in world [w], gives the recorded results and ends in [w']. *)
Inductive replays : World -> list (Event PointCloud PCLMesh) -> World -> Prop :=
| replays_nil w : replays w [] w
| replays_cons w e w' t w'' :
    answers w e w' -> replays w' t w'' -> replays w (e :: t) w''.

(** The calls the handler is registered for at line 43 all run on the one
    node object [this], one after the other: each call starts from the
    fields the call before left.  An incoming call comes with what happened
    to the world since the last one (frames arriving on the sensor stream)
    and with the response object the transport passes in.  The result is,
    per call, the returned boolean, the response and the call log, and then
    the node and the world after the last call. *)
Fixpoint session (incoming : list ((World -> World) * Response))
         (n : object_reconstruction_node PointCloud PCLMesh) (w : World)
  : list (bool * Response * list (Event PointCloud PCLMesh))
    * (object_reconstruction_node PointCloud PCLMesh * World) :=
  match incoming with
  | [] => ([], (n, w))
  | (arrive, response) :: later =>
      let r := service_call C n (arrive w) response in
      let out := session later (node (snd r)) (world (snd r)) in
      ((fst (fst r), snd (fst r), calls (snd r)) :: fst out, snd out)
  end.

End Replay.

Section Names.

Context {PointCloud PCLMesh : Type}.

(** The file name an event carries, if any. *)
Definition event_name (e : Event PointCloud PCLMesh) : option string :=
  match e with
  | EvWriteToPCD name _ => Some name
  | EvExtractCandidateObjects name _ _ => Some name
  | EvWriteMultipleToPCD name _ => Some name
  | EvConvertCloudToMesh name _ _ => Some name
  | EvDetectOcclusion _ name => Some name
  | _ => None
  end.

(** The file names handed to collaborators, in the order of the calls. *)
Fixpoint names_used (t : list (Event PointCloud PCLMesh)) : list string :=
  match t with
  | [] => []
  | e :: t' =>
      match event_name e with
      | Some name => name :: names_used t'
      | None => names_used t'
      end
  end.

(** The names of a call, in the order of use: they are a function of the
    output directory and of the number of candidates. *)
Definition names_for (directory : string) (count : nat) : list string :=
  (directory ++ "01-AccumulatedPointCloud")%string
  :: (directory ++ "00-Debugging")%string
  :: match count with
     | O => []
     | S _ => [(directory ++ "02-ObjectCandidates")%string]
     end
  ++ map (fun i => (directory ++ "03-ObjectCandidate-"
                      ++ to_string (Z.of_nat i))%string)
         (seq 0 count).

End Names.

(** The scene's sensor delivering frames between two calls. *)
Definition frames_arrive (frames : list Scene.PointCloud) (w : Scene.World)
  : Scene.World :=
  {| Scene.sensor_stream := Scene.sensor_stream w ++ frames;
     Scene.insufficient_frames := Scene.insufficient_frames w;
     Scene.files := Scene.files w;
     Scene.published := Scene.published w |}.

(** ** The handler with collaborators that may throw

    [FixOcclusions] has no [try] block: an exception thrown inside a
    collaborator leaves the handler at that call.  Here every collaborator
    either returns or throws, and the handler is the same sequence of
    statements in a state monad with that exit.  The node record and its
    setters are the ones above; the call log records the calls made, the
    throwing one included; [response] is the object the transport passed by
    reference, assigned by the handler only where the source assigns it. *)

Module Throwing.

Section Model.

Context {PointCloud PCLMesh World Exception : Type}.

(** How a call ends. *)
Inductive Outcome (A : Type) : Type :=
| Returns (a : A)
| Throws (e : Exception).

Arguments Returns {A} a.
Arguments Throws {A} e.

(** The collaborators of the handler, each one ending in a returned value or
    in an exception, and leaving a world behind either way. *)
Record Collaborators : Type := {
  (* m_point_cloud_accumulator.AccumulatePointClouds( n ) *)
  AccumulatePointClouds : Z -> World -> Outcome PointCloud * World;
  (* m_object_candidate_extractor.ExtractCandidateObjects( name, cloud ) *)
  ExtractCandidateObjects :
    string -> PointCloud -> World -> Outcome (list PointCloud) * World;
  (* m_object_candidate_extractor.PublishObjectCandidates( candidates ) *)
  PublishObjectCandidates : list PointCloud -> World -> Outcome unit * World;
  (* HelperFunctions::WriteToPCD( name, cloud ) *)
  WriteToPCD : string -> PointCloud -> World -> Outcome unit * World;
  (* HelperFunctions::WriteMultipleToPCD( name, candidates ) *)
  WriteMultipleToPCD : string -> list PointCloud -> World -> Outcome unit * World;
  (* HelperFunctions::ConvertCloudToMesh( name, cloud ) *)
  ConvertCloudToMesh : string -> PointCloud -> World -> Outcome PCLMesh * World
}.

(** One entry of the call log: the collaborator function and its
    arguments. *)
Inductive Call : Type :=
| CallAccumulatePointClouds (count : Z)
| CallWriteToPCD (name : string) (cloud : PointCloud)
| CallExtractCandidateObjects (name : string) (cloud : PointCloud)
| CallPublishObjectCandidates (candidates : list PointCloud)
| CallWriteMultipleToPCD (name : string) (candidates : list PointCloud)
| CallConvertCloudToMesh (name : string) (cloud : PointCloud).

Variable C : Collaborators.



(** The (name, cloud) pairs handed to the mesh builder. *)
Fixpoint conversions (made : list Call) : list (string * PointCloud) :=
  match made with
  | [] => []
  | CallConvertCloudToMesh name cloud :: made' => (name, cloud) :: conversions made'
  | _ :: made' => conversions made'
  end.

(** Whether a call belongs to the extraction or to the meshing stage. *)
Definition extracts_or_meshes (c : Call) : bool :=
  match c with
  | CallExtractCandidateObjects _ _ | CallConvertCloudToMesh _ _ => true
  | _ => false
  end.

(** *** The state monad with an exit *)

Record Machine : Type := {
  node : object_reconstruction_node PointCloud PCLMesh;
  world : World;
  calls : list Call;
  response : Response
}.

Definition M (A : Type) : Type := Machine -> Outcome A * Machine.

Definition ret {A : Type} (a : A) : M A := fun m => (Returns a, m).

(** Sequencing: an exception in the first part skips the rest. *)
Definition bind {A B : Type} (c : M A) (k : A -> M B) : M B :=
  fun m =>
    match fst (c m) with
    | Returns a => k a (snd (c m))
    | Throws e => (Throws e, snd (c m))
    end.

Definition field {A : Type}
           (proj : object_reconstruction_node PointCloud PCLMesh -> A) : M A :=
  fun m => (Returns (proj (node m)), m).

Definition this_m_output_directory : M string := field m_output_directory.
Definition this_m_object_candidates : M (list PointCloud) :=
  field m_object_candidates.
Definition this_m_resulting_cloud : M PointCloud := field m_resulting_cloud.

Definition assign
           (upd : object_reconstruction_node PointCloud PCLMesh
                  -> object_reconstruction_node PointCloud PCLMesh) : M unit :=
  fun m =>
    (Returns tt,
     {| node := upd (node m); world := world m; calls := calls m;
        response := response m |}).

(** [response.success = b]. *)
Definition assign_success (b : bool) : M unit :=
  fun m =>
    (Returns tt,
     {| node := node m; world := world m; calls := calls m;
        response := {| success := b |} |}).

Definition response_success : M bool :=
  fun m => (Returns (success (response m)), m).

(** A collaborator call: logged, the world moved on, and the call's outcome
    the outcome of the statement. *)
Definition invoke {A : Type} (f : World -> Outcome A * World) (c : Call) : M A :=
  fun m =>
    (fst (f (world m)),
     {| node := node m; world := snd (f (world m)); calls := calls m ++ [c];
        response := response m |}).

Declare Scope throwing_scope.
Local Notation "x <- c ;; k" := (bind c (fun x => k))
  (at level 61, c at next level, right associativity) : throwing_scope.
Local Notation "c ;; k" := (bind c (fun _ => k))
  (at level 61, right associativity) : throwing_scope.
Local Open Scope throwing_scope.

(** Lines 80 and 81. *)
Definition mesh_pass (i : Z) (candidate : PointCloud) : M unit :=
  output_directory <- this_m_output_directory ;;
  let candidate_name :=
    (output_directory ++ "03-ObjectCandidate-" ++ to_string i)%string in
  mesh <- invoke (ConvertCloudToMesh C candidate_name candidate)
                 (CallConvertCloudToMesh candidate_name candidate) ;;
  assign (set_m_operating_mesh mesh).

(** Lines 78 to 84. *)
Fixpoint mesh_loop (i : Z) (rest : list PointCloud) : M unit :=
  match rest with
  | [] => ret tt
  | candidate :: rest' =>
      mesh_pass i candidate ;;
      mesh_loop (i + 1) rest'
  end.

(** Lines 60 to 94. *)
Definition FixOcclusions (request : Request) : M bool :=
  output_directory <- this_m_output_directory ;;
  let candidate_name := (output_directory ++ "01-AccumulatedPointCloud")%string in
  cloud <- invoke (AccumulatePointClouds C 1) (CallAccumulatePointClouds 1) ;;
  assign (set_m_resulting_cloud cloud) ;;

  resulting_cloud <- this_m_resulting_cloud ;;
  invoke (WriteToPCD C candidate_name resulting_cloud)
         (CallWriteToPCD candidate_name resulting_cloud) ;;

  output_directory <- this_m_output_directory ;;
  let candidate_name := (output_directory ++ "00-Debugging")%string in
  resulting_cloud <- this_m_resulting_cloud ;;
  candidates <- invoke (ExtractCandidateObjects C candidate_name resulting_cloud)
                       (CallExtractCandidateObjects candidate_name resulting_cloud) ;;
  assign (set_m_object_candidates candidates) ;;

  object_candidates <- this_m_object_candidates ;;
  if negb (Nat.eqb (List.length object_candidates) 0) then
    invoke (PublishObjectCandidates C object_candidates)
           (CallPublishObjectCandidates object_candidates) ;;

    output_directory <- this_m_output_directory ;;
    let candidate_name := (output_directory ++ "02-ObjectCandidates")%string in
    invoke (WriteMultipleToPCD C candidate_name object_candidates)
           (CallWriteMultipleToPCD candidate_name object_candidates) ;;

    object_candidates <- this_m_object_candidates ;;
    mesh_loop 0 object_candidates ;;

    assign_success true ;;
    response_success
  else
    assign_success false ;;
    response_success.

(** One service call: the node as the previous call left it, the world, an
    empty log and the response object passed in. *)
Definition service_call (n : object_reconstruction_node PointCloud PCLMesh)
           (w : World) (passed : Response) : Outcome bool * Machine :=
  FixOcclusions EmptyRequest
    {| node := n; world := w; calls := []; response := passed |}.

End Model.

Arguments Outcome : clear implicits.
Arguments Returns {Exception A} a.
Arguments Throws {Exception A} e.
Arguments Collaborators : clear implicits.
Arguments Call : clear implicits.
Arguments Machine : clear implicits.

End Throwing.

(** Collaborators that always return are collaborators that may throw and
    never do. *)
Definition never_throwing {PointCloud PCLMesh World Exception : Type}
           (C : Collaborators PointCloud PCLMesh World)
  : Throwing.Collaborators PointCloud PCLMesh World Exception :=
  {| Throwing.AccumulatePointClouds count w :=
       (Throwing.Returns (fst (AccumulatePointClouds C count w)),
        snd (AccumulatePointClouds C count w));
     Throwing.ExtractCandidateObjects name cloud w :=
       (Throwing.Returns (fst (ExtractCandidateObjects C name cloud w)),
        snd (ExtractCandidateObjects C name cloud w));
     Throwing.PublishObjectCandidates candidates w :=
       (Throwing.Returns tt, PublishObjectCandidates C candidates w);
     Throwing.WriteToPCD name cloud w :=
       (Throwing.Returns tt, WriteToPCD C name cloud w);
     Throwing.WriteMultipleToPCD name candidates w :=
       (Throwing.Returns tt, WriteMultipleToPCD C name candidates w);
     Throwing.ConvertCloudToMesh name cloud w :=
       (Throwing.Returns (fst (ConvertCloudToMesh C name cloud w)),
        snd (ConvertCloudToMesh C name cloud w)) |}.

(** A log with the results dropped.  The two events of the occlusion stage
    have no collaborator and no call. *)
Fixpoint calls_of {PointCloud PCLMesh : Type}
         (t : list (Event PointCloud PCLMesh))
  : list (Throwing.Call PointCloud) :=
  match t with
  | [] => []
  | EvAccumulatePointClouds count _ :: t' =>
      Throwing.CallAccumulatePointClouds count :: calls_of t'
  | EvWriteToPCD name cloud :: t' =>
      Throwing.CallWriteToPCD name cloud :: calls_of t'
  | EvExtractCandidateObjects name cloud _ :: t' =>
      Throwing.CallExtractCandidateObjects name cloud :: calls_of t'
  | EvPublishObjectCandidates candidates :: t' =>
      Throwing.CallPublishObjectCandidates candidates :: calls_of t'
  | EvWriteMultipleToPCD name candidates :: t' =>
      Throwing.CallWriteMultipleToPCD name candidates :: calls_of t'
  | EvConvertCloudToMesh name cloud _ :: t' =>
      Throwing.CallConvertCloudToMesh name cloud :: calls_of t'
  | _ :: t' => calls_of t'
  end.

(** ** The scene with collaborators that fail

    The accumulator of the concrete scene throws when the stream holds fewer
    frames than asked for, and its mesh builder throws on a candidate whose
    points all coincide; a candidate of fewer than three points still yields
    the empty mesh.  Every other collaborator is the one of [Scene]. *)

Module FailingScene.

Inductive Failure : Type := InsufficientFrames | TriangulationFailed.

(** Modelled from the spec: [Accumulate] of section 4.1 fails with
    [InsufficientFrames] when the stream holds fewer frames than requested;
    a function returning a cloud can fail only by throwing. *)
Definition accumulate (count : Z) (w : Scene.World)
  : Throwing.Outcome Failure Scene.PointCloud * Scene.World :=
  if (Z.to_nat count <=? List.length (Scene.sensor_stream w))%nat then
    (Throwing.Returns (fst (Scene.accumulate count w)),
     snd (Scene.accumulate count w))
  else
    (Throwing.Throws InsufficientFrames, w).

Definition same_point (p q : Scene.Point) : bool :=
  (fst (fst p) =? fst (fst q)) && (snd (fst p) =? snd (fst q))
  && (snd p =? snd q).

Definition coincident (cloud : Scene.PointCloud) : bool :=
  match cloud with
  | [] => false
  | p :: rest => (3 <=? List.length cloud)%nat && forallb (same_point p) rest
  end.

Definition convert (name : string) (cloud : Scene.PointCloud) (w : Scene.World)
  : Throwing.Outcome Failure Scene.PCLMesh * Scene.World :=
  if coincident cloud then (Throwing.Throws TriangulationFailed, w)
  else (Throwing.Returns (fst (Scene.convert name cloud w)),
        snd (Scene.convert name cloud w)).

Definition collaborators
  : Throwing.Collaborators Scene.PointCloud Scene.PCLMesh Scene.World Failure :=
  {| Throwing.AccumulatePointClouds := accumulate;
     Throwing.ExtractCandidateObjects name cloud w :=
       (Throwing.Returns (fst (Scene.extract name cloud w)),
        snd (Scene.extract name cloud w));
     Throwing.PublishObjectCandidates candidates w :=
       (Throwing.Returns tt, Scene.publish candidates w);
     Throwing.WriteToPCD name cloud w :=
       (Throwing.Returns tt, Scene.write name [cloud] w);
     Throwing.WriteMultipleToPCD name candidates w :=
       (Throwing.Returns tt, Scene.write name candidates w);
     Throwing.ConvertCloudToMesh := convert |}.

(** Three coincident points to the left of the origin, and a frame with
    them in front of the box. *)
Definition clump : Scene.PointCloud := [(-4, 4, 1); (-4, 4, 1); (-4, 4, 1)].
Definition frame_box_clump : Scene.PointCloud :=
  Scene.table ++ Scene.box ++ clump.

(** The worlds of a run over that frame, from the output directory
    /tmp/out/, up to the entry of the loop. *)
Definition w0 : Scene.World := Scene.world_of [frame_box_clump].
Definition w1 : Scene.World := snd (Scene.accumulate 1 w0).
Definition w2 : Scene.World :=
  Scene.write "/tmp/out/01-AccumulatedPointCloud" [frame_box_clump] w1.
Definition w4 : Scene.World := Scene.publish [clump; Scene.box] w2.
Definition w5 : Scene.World :=
  Scene.write "/tmp/out/02-ObjectCandidates" [clump; Scene.box] w4.

End FailingScene.

(** ** Properties of the handler *)

(** *** Artifact names *)

Lemma to_int_not_nil (z : Z) : Z.to_int z <> Pos Nil /\ Z.to_int z <> Neg Nil.
Proof.
  destruct z as [|p|p]; cbn; split; try discriminate;
    intros [= H]; now apply (Unsigned.to_uint_nonnil p).
Qed.

(** Distinct counter values render differently. *)
Lemma to_string_inj (a b : Z) : to_string a = to_string b -> a = b.
Proof.
  unfold to_string. intros H. apply to_int_inj.
  destruct (to_int_not_nil a) as (Ha1 & Ha2), (to_int_not_nil b) as (Hb1 & Hb2).
  pose proof (NilZero.isi _ Ha1 Ha2) as Ea.
  pose proof (NilZero.isi _ Hb1 Hb2) as Eb.
  rewrite H in Ea. congruence.
Qed.

Lemma append_inj_l (s a b : string) : (s ++ a = s ++ b)%string -> a = b.
Proof. induction s as [|ch s IH]; cbn; [auto|]. intros [= H]. auto. Qed.

(** So the per-candidate artifacts of one run have pairwise distinct names. *)
Lemma candidate_artifact_inj (directory : string) (i j : Z) :
  (directory ++ "03-ObjectCandidate-" ++ to_string i
   = directory ++ "03-ObjectCandidate-" ++ to_string j)%string ->
  i = j.
Proof.
  intros H. apply append_inj_l in H. apply append_inj_l in H.
  now apply to_string_inj.
Qed.

(** *** Call logs *)

Section LogFacts.

Context {PointCloud PCLMesh : Type}.

Implicit Types t u : list (Event PointCloud PCLMesh).

Lemma mesh_calls_app t u : mesh_calls (t ++ u) = mesh_calls t ++ mesh_calls u.
Proof.
  induction t as [|e t IH]; [reflexivity|].
  destruct e; cbn; rewrite ?IH; reflexivity.
Qed.

Lemma accumulate_requests_app t u :
  accumulate_requests (t ++ u) = accumulate_requests t ++ accumulate_requests u.
Proof.
  induction t as [|e t IH]; [reflexivity|].
  destruct e; cbn; rewrite ?IH; reflexivity.
Qed.

Lemma repaired_meshes_app t u :
  repaired_meshes (t ++ u) = repaired_meshes t ++ repaired_meshes u.
Proof.
  induction t as [|e t IH]; [reflexivity|].
  destruct e; cbn; rewrite ?IH; reflexivity.
Qed.

Lemma written_clouds_app t u :
  written_clouds (t ++ u) = written_clouds t ++ written_clouds u.
Proof.
  induction t as [|e t IH]; [reflexivity|].
  destruct e; cbn; rewrite ?IH; reflexivity.
Qed.

Lemma written_candidate_sets_app t u :
  written_candidate_sets (t ++ u)
  = written_candidate_sets t ++ written_candidate_sets u.
Proof.
  induction t as [|e t IH]; [reflexivity|].
  destruct e; cbn; rewrite ?IH; reflexivity.
Qed.

Lemma last_cons_default {A : Type} (x d : A) (l : list A) :
  last (x :: l) d = last l x.
Proof.
  revert x d. induction l as [|y l IH]; intros x d; [reflexivity|].
  change (last (x :: y :: l) d) with (last (y :: l) d).
  change (last (y :: l) x) with (last (y :: l) x).
  now rewrite !IH.
Qed.

(** A log of mesh-builder calls only holds nothing else. *)
Lemma only_meshing_observations t :
  forallb is_meshing t = true ->
  accumulate_requests t = [] /\ repaired_meshes t = [] /\
  written_clouds t = [] /\ written_candidate_sets t = [] /\
  forallb (fun e => negb (is_occlusion e)) t = true /\
  forallb (fun e => negb (is_extraction e)) t = true /\
  List.length (mesh_calls t) = List.length t.
Proof.
  induction t as [|e t IH]; cbn; [intuition|].
  destruct e; cbn; try discriminate.
  intros H. destruct (IH H) as (? & ? & ? & ? & ? & ? & ?).
  repeat split; auto.
Qed.

Lemma mesh_calls_nth t : forall k name cloud mesh,
  forallb is_meshing t = true ->
  nth_error t k = Some (EvConvertCloudToMesh name cloud mesh) ->
  nth_error (mesh_calls t) k = Some (name, cloud, mesh).
Proof.
  induction t as [|e t IH]; intros [|k] name cloud mesh Hm Hn;
    try discriminate; destruct e; try discriminate; cbn in *.
  - now injection Hn as -> -> ->.
  - now apply IH.
Qed.

End LogFacts.

(** *** The loop *)

Section LoopFacts.

Context {PointCloud PCLMesh World : Type}.
Variable C : Collaborators PointCloud PCLMesh World.

Implicit Types m : Machine PointCloud PCLMesh World.

(** The name the loop gives the artifact of the candidate at counter [i]. *)
Local Abbreviation artifact m i :=
  (m_output_directory (node m) ++ "03-ObjectCandidate-" ++ to_string i)%string.

(** The machine after one pass. *)
Lemma mesh_pass_eq i c m :
  snd (mesh_pass C i c m) =
  let r := ConvertCloudToMesh C (artifact m i) c (world m) in
  {| node := set_m_operating_mesh (fst r) (node m);
     world := snd r;
     calls := calls m ++ [EvConvertCloudToMesh (artifact m i) c (fst r)] |}.
Proof. reflexivity. Qed.

Lemma mesh_loop_nil i m : snd (mesh_loop C i [] m) = m.
Proof. reflexivity. Qed.

Lemma mesh_loop_cons i c rest m :
  snd (mesh_loop C i (c :: rest) m)
  = snd (mesh_loop C (i + 1) rest (snd (mesh_pass C i c m))).
Proof. reflexivity. Qed.

(** The loop leaves the three other fields alone. *)
Lemma mesh_loop_frame rest : forall i m,
  m_output_directory (node (snd (mesh_loop C i rest m)))
    = m_output_directory (node m) /\
  m_object_candidates (node (snd (mesh_loop C i rest m)))
    = m_object_candidates (node m) /\
  m_resulting_cloud (node (snd (mesh_loop C i rest m)))
    = m_resulting_cloud (node m).
Proof.
  induction rest as [|c rest IH]; intros i m; [now rewrite mesh_loop_nil|].
  rewrite mesh_loop_cons.
  destruct (IH (i + 1) (snd (mesh_pass C i c m))) as (Hd & Hc & Hr).
  rewrite Hd, Hc, Hr, mesh_pass_eq. cbn. auto.
Qed.

(** The loop appends one mesh-builder call per element of [rest], in
    order, each named after the counter value of its pass, and nothing
    else. *)
Lemma mesh_loop_calls rest : forall i m,
  exists evs,
    calls (snd (mesh_loop C i rest m)) = calls m ++ evs /\
    forallb is_meshing evs = true /\
    List.length evs = List.length rest /\
    forall k c, nth_error rest k = Some c ->
      exists w,
        nth_error evs k =
        Some (EvConvertCloudToMesh
                (artifact m (i + Z.of_nat k)) c
                (fst (ConvertCloudToMesh C (artifact m (i + Z.of_nat k)) c w))).
Proof.
  induction rest as [|c rest IH]; intros i m.
  - exists []. rewrite mesh_loop_nil, app_nil_r. repeat split; auto.
    intros [|k] c' H; discriminate.
  - rewrite mesh_loop_cons.
    destruct (IH (i + 1) (snd (mesh_pass C i c m))) as (evs & Hc & Hm & Hl & Hn).
    exists (EvConvertCloudToMesh
              (artifact m i) c
              (fst (ConvertCloudToMesh C (artifact m i) c (world m))) :: evs).
    rewrite Hc. cbn [mesh_pass_eq]. split; [|split; [|split]].
    + rewrite mesh_pass_eq. cbn. now rewrite <- app_assoc.
    + cbn. exact Hm.
    + cbn. now rewrite Hl.
    + intros [|k] c' H; cbn in H.
      * injection H as <-. exists (world m). now rewrite Z.add_0_r.
      * destruct (Hn k c' H) as (w & Hw). exists w. cbn [nth_error].
        replace (i + Z.of_nat (S k)) with (i + 1 + Z.of_nat k) by lia.
        exact Hw.
Qed.

(** After the loop [m_operating_mesh] is the mesh of the last call the loop
    made, or its old value if the loop made none. *)
Lemma mesh_loop_operating_mesh rest : forall i m evs,
  calls (snd (mesh_loop C i rest m)) = calls m ++ evs ->
  m_operating_mesh (node (snd (mesh_loop C i rest m)))
  = last (built_meshes evs) (m_operating_mesh (node m)).
Proof.
  induction rest as [|c rest IH]; intros i m evs H.
  - rewrite mesh_loop_nil in *.
    assert (evs = []) as ->; [|reflexivity].
    apply (app_inv_head (calls m)). now rewrite app_nil_r.
  - rewrite mesh_loop_cons in *.
    destruct (mesh_loop_calls rest (i + 1) (snd (mesh_pass C i c m)))
      as (evs' & Hc & _).
    rewrite (IH _ _ _ Hc).
    rewrite Hc in H. rewrite mesh_pass_eq in H at 1. cbn in H.
    rewrite <- app_assoc in H.
    apply app_inv_head in H. subst evs.
    unfold built_meshes. rewrite mesh_calls_app.
    cbn [mesh_calls]. rewrite map_app. cbn [map snd].
    change (last ([?x] ++ ?l) ?d) with (last (x :: l) d).
    now rewrite last_cons_default.
Qed.

(** The loop cannot tell alike machines apart, and after at least one pass
    it has overwritten [m_operating_mesh] in both with the same mesh. *)
Lemma mesh_pass_alike i c m1 m2 :
  alike m1 m2 ->
  alike (snd (mesh_pass C i c m1)) (snd (mesh_pass C i c m2)) /\
  m_operating_mesh (node (snd (mesh_pass C i c m1)))
  = m_operating_mesh (node (snd (mesh_pass C i c m2))).
Proof.
  intros (Hd & Hw & Hc). rewrite !mesh_pass_eq. unfold alike. cbn.
  rewrite Hd, Hw, Hc. auto.
Qed.

Lemma mesh_loop_alike rest : forall i m1 m2,
  alike m1 m2 ->
  alike (snd (mesh_loop C i rest m1)) (snd (mesh_loop C i rest m2)) /\
  (m_operating_mesh (node m1) = m_operating_mesh (node m2) \/ rest <> [] ->
   m_operating_mesh (node (snd (mesh_loop C i rest m1)))
   = m_operating_mesh (node (snd (mesh_loop C i rest m2)))).
Proof.
  induction rest as [|c rest IH]; intros i m1 m2 H.
  - rewrite !mesh_loop_nil. split; [exact H|]. intros [E|E]; congruence.
  - rewrite !mesh_loop_cons.
    destruct (mesh_pass_alike i c m1 m2 H) as (Ha & Hm).
    destruct (IH (i + 1) _ _ Ha) as (Ha' & Hm').
    split; [exact Ha'|]. intros _. apply Hm'. now left.
Qed.

End LoopFacts.

(** *** The handler *)

Section HandlerFacts.

Context {PointCloud PCLMesh World : Type}.
Variable C : Collaborators PointCloud PCLMesh World.

Implicit Types n : object_reconstruction_node PointCloud PCLMesh.
Implicit Types w : World.
Implicit Types response : Response.

(** The whole call, branch by branch. *)
Lemma service_call_no_candidates n w response :
  extracted C n w = [] ->
  service_call C n w response
  = (false, {| success := false |}, after_extraction C n w).
Proof.
  intros H. unfold service_call, FixOcclusions, bind. cbn.
  fold (accumulated C w). fold (extraction C n w). fold (extracted C n w).
  unfold after_extraction. rewrite H. reflexivity.
Qed.

Lemma service_call_candidates n w response :
  extracted C n w <> [] ->
  service_call C n w response
  = (true, {| success := true |},
     snd (mesh_loop C 0 (extracted C n w) (loop_entry C n w))).
Proof.
  intros H. unfold service_call, FixOcclusions, bind. cbn.
  fold (accumulated C w). fold (extraction C n w). fold (extracted C n w).
  unfold loop_entry, after_extraction. cbn.
  destruct (extracted C n w) eqn:E; [congruence|]. reflexivity.
Qed.

(** The shape of the call log of every call: the three calls up to the
    extraction; if there are candidates the two calls announcing them; then
    one mesh-builder call per candidate. *)
Lemma trace_shape n w response :
  exists evs,
    trace C n w response
    = calls (after_extraction C n w)
      ++ match extracted C n w with
         | [] => []
         | _ :: _ =>
             [EvPublishObjectCandidates (extracted C n w);
              EvWriteMultipleToPCD
                (m_output_directory n ++ "02-ObjectCandidates")%string
                (extracted C n w)]
         end
      ++ evs /\
    forallb is_meshing evs = true /\
    List.length evs = List.length (extracted C n w) /\
    (forall k c, nth_error (extracted C n w) k = Some c ->
       exists w',
         nth_error evs k =
         Some (EvConvertCloudToMesh
                 (m_output_directory n ++ "03-ObjectCandidate-"
                    ++ to_string (Z.of_nat k))%string c
                 (fst (ConvertCloudToMesh C
                         (m_output_directory n ++ "03-ObjectCandidate-"
                            ++ to_string (Z.of_nat k))%string c w')))) /\
    m_operating_mesh (node_after C n w response)
    = last (built_meshes evs) (m_operating_mesh n).
Proof.
  unfold trace, node_after.
  destruct (extracted C n w) as [|c0 cs] eqn:E.
  - rewrite (service_call_no_candidates n w response E). exists [].
    cbn [snd]. rewrite !app_nil_r. repeat split; auto.
    intros [|k] c H; discriminate.
  - assert (extracted C n w <> []) as Hne by congruence.
    rewrite (service_call_candidates n w response Hne). cbn [snd].
    destruct (mesh_loop_calls C (extracted C n w) 0 (loop_entry C n w))
      as (evs & Hc & Hm & Hl & Hn).
    exists evs. rewrite E in *. split; [|split; [|split; [|split]]].
    + rewrite Hc. unfold loop_entry. cbn [calls]. rewrite E.
      now rewrite <- app_assoc.
    + exact Hm.
    + exact Hl.
    + intros k c H. destruct (Hn k c H) as (w' & Hw'). exists w'.
      exact Hw'.
    + rewrite (mesh_loop_operating_mesh C _ _ _ _ Hc). reflexivity.
Qed.

(** What the observations read off the call log of a call. *)
Lemma trace_observations n w response :
  accumulate_requests (trace C n w response) = [1] /\
  written_clouds (trace C n w response)
  = [((m_output_directory n ++ "01-AccumulatedPointCloud")%string,
      accumulated C w)] /\
  written_candidate_sets (trace C n w response)
  = match extracted C n w with
    | [] => []
    | _ :: _ => [((m_output_directory n ++ "02-ObjectCandidates")%string,
                  extracted C n w)]
    end /\
  repaired_meshes (trace C n w response) = [] /\
  forallb (fun e => negb (is_occlusion e)) (trace C n w response) = true.
Proof.
  destruct (trace_shape n w response) as (evs & -> & Hm & _).
  destruct (only_meshing_observations evs Hm) as (Ha & Hr & Hw & Hs & Ho & _).
  rewrite !accumulate_requests_app, !written_clouds_app,
    !written_candidate_sets_app, !repaired_meshes_app, !forallb_app.
  rewrite Ha, Hr, Hw, Hs, Ho.
  destruct (extracted C n w); cbn; auto.
Qed.

Lemma trace_mesh_calls n w response :
  List.length (mesh_calls (trace C n w response))
  = List.length (extracted C n w) /\
  (forall k c, nth_error (extracted C n w) k = Some c ->
     exists w',
       nth_error (mesh_calls (trace C n w response)) k =
       Some ((m_output_directory n ++ "03-ObjectCandidate-"
                ++ to_string (Z.of_nat k))%string, c,
             fst (ConvertCloudToMesh C
                    (m_output_directory n ++ "03-ObjectCandidate-"
                       ++ to_string (Z.of_nat k))%string c w'))) /\
  m_operating_mesh (node_after C n w response)
  = last (built_meshes (trace C n w response)) (m_operating_mesh n).
Proof.
  destruct (trace_shape n w response) as (evs & Ht & Hm & Hl & Hn & Ho).
  assert (mesh_calls (trace C n w response) = mesh_calls evs) as E.
  { rewrite Ht, !mesh_calls_app. destruct (extracted C n w); reflexivity. }
  unfold built_meshes. rewrite E.
  destruct (only_meshing_observations evs Hm) as (_ & _ & _ & _ & _ & _ & Hlen).
  split; [congruence|]. split; [|exact Ho].
  intros k c H. destruct (Hn k c H) as (w' & Hw'). exists w'.
  now apply mesh_calls_nth.
Qed.

(** The two other outputs of a call. *)
Lemma outcome n w response :
  returned C n w response = negb (Nat.eqb (List.length (extracted C n w)) 0) /\
  responded C n w response
  = {| success := negb (Nat.eqb (List.length (extracted C n w)) 0) |}.
Proof.
  unfold returned, responded.
  destruct (extracted C n w) as [|c0 cs] eqn:E.
  - now rewrite (service_call_no_candidates n w response E).
  - assert (extracted C n w <> []) as Hne by congruence.
    now rewrite (service_call_candidates n w response Hne).
Qed.

(** The cloud fields after a call are what the accumulator and the
    extractor returned; the output directory is unchanged. *)
Lemma fields_after n w response :
  m_output_directory (node_after C n w response) = m_output_directory n /\
  m_resulting_cloud (node_after C n w response) = accumulated C w /\
  m_object_candidates (node_after C n w response) = extracted C n w.
Proof.
  unfold node_after.
  destruct (extracted C n w) as [|c0 cs] eqn:E.
  - rewrite (service_call_no_candidates n w response E).
    unfold after_extraction. rewrite E. cbn. auto.
  - assert (extracted C n w <> []) as Hne by congruence.
    rewrite (service_call_candidates n w response Hne). cbn [snd].
    destruct (mesh_loop_frame C (extracted C n w) 0 (loop_entry C n w))
      as (Hd & Hc & Hr).
    rewrite Hd, Hc, Hr. cbn. auto.
Qed.

(** Calls on nodes with the same output directory end in alike
    machines. *)
Lemma extraction_same_directory n1 n2 w :
  m_output_directory n1 = m_output_directory n2 ->
  extraction C n1 w = extraction C n2 w.
Proof. intros H. unfold extraction. now rewrite H. Qed.

Lemma service_call_alike n1 n2 w response1 response2 :
  m_output_directory n1 = m_output_directory n2 ->
  alike (snd (service_call C n1 w response1))
        (snd (service_call C n2 w response2)).
Proof.
  intros H. pose proof (extraction_same_directory n1 n2 w H) as Hx.
  assert (extracted C n1 w = extracted C n2 w) as He.
  { unfold extracted. now rewrite Hx. }
  destruct (extracted C n2 w) as [|c0 cs] eqn:E.
  - rewrite !service_call_no_candidates by congruence.
    unfold alike, after_extraction. cbn. now rewrite H, He, E, Hx.
  - rewrite !service_call_candidates by congruence. rewrite He, E.
    apply mesh_loop_alike. unfold alike, loop_entry, after_extraction.
    cbn. now rewrite H, He, E, Hx.
Qed.

End HandlerFacts.

(** *** The outward result *)

Section OutwardResult.

Context {PointCloud PCLMesh World : Type}.
Variable C : Collaborators PointCloud PCLMesh World.

Implicit Types n : object_reconstruction_node PointCloud PCLMesh.
Implicit Types w : World.
Implicit Types response : Response.

(** C8: the boolean the handler returns is the success field it stored in
    the response, and it is true exactly when the candidate sequence is not
    empty. *)
Theorem returned_is_stored_success n w response :
  returned C n w response = success (responded C n w response) /\
  returned C n w response
  = negb (Nat.eqb (List.length (extracted C n w)) 0).
Proof.
  destruct (outcome C n w response) as (-> & ->). cbn. auto.
Qed.

(** C3: when the extraction returns the empty sequence the handler returns
    normally with success false, having made the three calls up to the
    extraction and no call to the mesh builder or to the occlusion
    stage. *)
Theorem no_candidates_is_plain_failure n w response :
  extracted C n w = [] ->
  responded C n w response = {| success := false |} /\
  returned C n w response = false /\
  trace C n w response
  = [EvAccumulatePointClouds 1 (accumulated C w);
     EvWriteToPCD (m_output_directory n ++ "01-AccumulatedPointCloud")%string
                  (accumulated C w);
     EvExtractCandidateObjects (m_output_directory n ++ "00-Debugging")%string
                               (accumulated C w) []] /\
  forallb (fun e => negb (is_meshing e || is_occlusion e))
          (trace C n w response) = true.
Proof.
  intros H. unfold responded, returned, trace.
  rewrite (service_call_no_candidates C n w response H).
  unfold after_extraction. rewrite H. cbn. auto.
Qed.

(** C6, as the code has it: under every configuration the handler asks the
    accumulator once, and for exactly one frame. *)
Theorem one_frame_requested (cfg : Configuration) n w response :
  accumulate_requests (trace C (configure cfg n) w response) = [1] /\
  Forall (fun count => 0 < count)
         (accumulate_requests (trace C (configure cfg n) w response)).
Proof.
  destruct (trace_observations C (configure cfg n) w response) as (-> & _).
  split; [reflexivity|]. constructor; [lia|constructor].
Qed.

End OutwardResult.

(** *** The collaborator calls and the fields left behind *)

Section CallsAndFields.

Context {PointCloud PCLMesh World : Type}.
Variable C : Collaborators PointCloud PCLMesh World.

Implicit Types n : object_reconstruction_node PointCloud PCLMesh.
Implicit Types w : World.
Implicit Types response : Response.

Lemma last_nth_error {A : Type} (l : list A) (x d : A) :
  nth_error l (List.length l - 1) = Some x -> last l d = x.
Proof.
  induction l as [|a l IH]; [discriminate|].
  destruct l as [|b l]; cbn [List.length Nat.sub nth_error].
  - intros [= ->]. reflexivity.
  - intros H. change (last (a :: b :: l) d) with (last (b :: l) d).
    apply IH. cbn [List.length Nat.sub]. now rewrite Nat.sub_0_r.
Qed.

(** C7: the accumulated cloud is written once, under the output directory
    followed by 01-AccumulatedPointCloud; the candidate set, when there is
    one, under the output directory followed by 02-ObjectCandidates; and
    the artifact of the candidate at index i is named the output directory
    followed by 03-ObjectCandidate- and the decimal rendering of i. *)
Theorem artifact_names n w response :
  written_clouds (trace C n w response)
  = [((m_output_directory n ++ "01-AccumulatedPointCloud")%string,
      accumulated C w)] /\
  written_candidate_sets (trace C n w response)
  = match extracted C n w with
    | [] => []
    | _ :: _ => [((m_output_directory n ++ "02-ObjectCandidates")%string,
                  extracted C n w)]
    end /\
  forall i c,
    nth_error (extracted C n w) i = Some c ->
    exists mesh,
      nth_error (mesh_calls (trace C n w response)) i
      = Some ((m_output_directory n ++ "03-ObjectCandidate-"
                 ++ to_string (Z.of_nat i))%string, c, mesh).
Proof.
  destruct (trace_observations C n w response) as (_ & Hw & Hs & _).
  destruct (trace_mesh_calls C n w response) as (_ & Hn & _).
  split; [exact Hw|]. split; [exact Hs|].
  intros i c H. destruct (Hn i c H) as (w' & Hw'). eauto.
Qed.

(** Of a configuration the node sees the output directory only: the frame
    count, the thresholds and the repair mode cannot change a run. *)
Lemma configure_reads_directory_only (cfg1 cfg2 : Configuration) n w response :
  output_directory cfg1 = output_directory cfg2 ->
  service_call C (configure cfg1 n) w response
  = service_call C (configure cfg2 n) w response.
Proof. intros H. unfold configure. now rewrite H. Qed.

(** C9: two calls on nodes with the same output directory, in the same
    world, give the same response, the same returned boolean, the same
    calls and the same world afterwards, whatever m_resulting_cloud,
    m_object_candidates and m_operating_mesh held before and whatever the
    response passed in held; both cloud fields end up equal too. *)
Theorem response_independent_of_prior_fields n1 n2 w response1 response2 :
  m_output_directory n1 = m_output_directory n2 ->
  responded C n1 w response1 = responded C n2 w response2 /\
  returned C n1 w response1 = returned C n2 w response2 /\
  trace C n1 w response1 = trace C n2 w response2 /\
  world_after C n1 w response1 = world_after C n2 w response2 /\
  m_resulting_cloud (node_after C n1 w response1)
  = m_resulting_cloud (node_after C n2 w response2) /\
  m_object_candidates (node_after C n1 w response1)
  = m_object_candidates (node_after C n2 w response2).
Proof.
  intros H.
  assert (extracted C n1 w = extracted C n2 w) as He.
  { unfold extracted. now rewrite (extraction_same_directory C n1 n2 w H). }
  destruct (outcome C n1 w response1) as (-> & ->).
  destruct (outcome C n2 w response2) as (-> & ->).
  destruct (fields_after C n1 w response1) as (_ & -> & ->).
  destruct (fields_after C n2 w response2) as (_ & -> & ->).
  destruct (service_call_alike C n1 n2 w response1 response2 H)
    as (_ & Hw & Hc).
  rewrite He. repeat split; auto.
Qed.

End CallsAndFields.

(** ** Runs on the concrete scene *)

(** The trace of a run over a box and a cone on a table: two candidates, two
    meshes, the artifacts numbered 0 and 1. *)
Example scene_two_candidates :
  mesh_requests
    (trace Scene.collaborators (Scene.fresh "/tmp/out/")
           (Scene.world_of [Scene.frame_box_cone]) {| success := false |})
  = [("/tmp/out/03-ObjectCandidate-0"%string, Scene.cone);
     ("/tmp/out/03-ObjectCandidate-1"%string, Scene.box)].
Proof. reflexivity. Qed.

(** A degenerate candidate in front of a valid one: the first mesh is the
    empty one, the second candidate is meshed all the same. *)
Example scene_degenerate_then_valid :
  candidate_states Scene.empty_mesh
    (trace Scene.collaborators (Scene.fresh "/tmp/out/")
           (Scene.world_of [Scene.frame_box_speck]) {| success := false |})
  = [CandidateFailed; MeshBuilt].
Proof. reflexivity. Qed.

(** C1 as stated fails: one candidate, degenerate, so that every candidate
    failed and the reduction of the candidate states is false; the response
    says success. *)
Lemma success_though_every_candidate_failed :
  extracted Scene.collaborators (Scene.fresh "/tmp/out/")
            (Scene.world_of [Scene.frame_speck]) = [Scene.speck] /\
  candidate_states Scene.empty_mesh
    (trace Scene.collaborators (Scene.fresh "/tmp/out/")
           (Scene.world_of [Scene.frame_speck]) {| success := false |})
  = [CandidateFailed] /\
  success (responded Scene.collaborators (Scene.fresh "/tmp/out/")
                     (Scene.world_of [Scene.frame_speck]) {| success := false |})
  <> Reducing
       (candidate_states Scene.empty_mesh
          (trace Scene.collaborators (Scene.fresh "/tmp/out/")
                 (Scene.world_of [Scene.frame_speck]) {| success := false |})).
Proof. repeat split; vm_compute; discriminate. Qed.

(** C2 as stated fails: under repair mode DetectAndRepair, a run with one
    valid candidate answers success but produces no repaired mesh. *)
Lemma no_repaired_mesh_under_detect_and_repair :
  repair_mode (Scene.configuration 1 DetectAndRepair) = DetectAndRepair /\
  extracted Scene.collaborators
            (configure (Scene.configuration 1 DetectAndRepair) (Scene.fresh ""))
            (Scene.world_of [Scene.frame_box]) = [Scene.box] /\
  candidate_states Scene.empty_mesh
    (trace Scene.collaborators
           (configure (Scene.configuration 1 DetectAndRepair) (Scene.fresh ""))
           (Scene.world_of [Scene.frame_box]) {| success := false |})
  = [MeshBuilt] /\
  ~ (success
       (responded Scene.collaborators
          (configure (Scene.configuration 1 DetectAndRepair) (Scene.fresh ""))
          (Scene.world_of [Scene.frame_box]) {| success := false |}) = true /\
     repaired_meshes
       (trace Scene.collaborators
          (configure (Scene.configuration 1 DetectAndRepair) (Scene.fresh ""))
          (Scene.world_of [Scene.frame_box]) {| success := false |}) <> []).
Proof.
  repeat split; try reflexivity.
  intros (_ & H). apply H. reflexivity.
Qed.

Lemma no_candidates_is_plain_failure_witness :
  extracted Scene.collaborators (Scene.fresh "/tmp/out/")
            (Scene.world_of [Scene.table]) = [] /\
  (responded Scene.collaborators (Scene.fresh "/tmp/out/")
             (Scene.world_of [Scene.table]) {| success := true |}
   = {| success := false |} /\
   returned Scene.collaborators (Scene.fresh "/tmp/out/")
            (Scene.world_of [Scene.table]) {| success := true |} = false /\
   trace Scene.collaborators (Scene.fresh "/tmp/out/")
         (Scene.world_of [Scene.table]) {| success := true |}
   = [EvAccumulatePointClouds 1
        (accumulated Scene.collaborators (Scene.world_of [Scene.table]));
      EvWriteToPCD
        (m_output_directory (Scene.fresh "/tmp/out/")
           ++ "01-AccumulatedPointCloud")%string
        (accumulated Scene.collaborators (Scene.world_of [Scene.table]));
      EvExtractCandidateObjects
        (m_output_directory (Scene.fresh "/tmp/out/") ++ "00-Debugging")%string
        (accumulated Scene.collaborators (Scene.world_of [Scene.table])) []] /\
   forallb (fun e => negb (is_meshing e || is_occlusion e))
     (trace Scene.collaborators (Scene.fresh "/tmp/out/")
            (Scene.world_of [Scene.table]) {| success := true |}) = true).
Proof.
  split.
  - reflexivity.
  - apply (no_candidates_is_plain_failure Scene.collaborators). reflexivity.
Defined.

(** C6 as stated fails: with five frames configured the accumulator is asked
    for one. *)
Lemma configured_frame_count_not_requested :
  frame_count (Scene.configuration 5 Skip) = 5 /\
  accumulate_requests
    (trace Scene.collaborators
           (configure (Scene.configuration 5 Skip) (Scene.fresh ""))
           (Scene.world_of [Scene.frame_box; Scene.frame_box; Scene.frame_box;
                            Scene.frame_box; Scene.frame_box])
           {| success := false |})
  <> [frame_count (Scene.configuration 5 Skip)].
Proof. split; [reflexivity|]. vm_compute. discriminate. Qed.

Lemma artifact_names_witness :
  written_clouds
    (trace Scene.collaborators (Scene.fresh "/tmp/out/")
           (Scene.world_of [Scene.frame_box_cone]) {| success := false |})
  = [((m_output_directory (Scene.fresh "/tmp/out/")
         ++ "01-AccumulatedPointCloud")%string,
      accumulated Scene.collaborators (Scene.world_of [Scene.frame_box_cone]))] /\
  written_candidate_sets
    (trace Scene.collaborators (Scene.fresh "/tmp/out/")
           (Scene.world_of [Scene.frame_box_cone]) {| success := false |})
  = match extracted Scene.collaborators (Scene.fresh "/tmp/out/")
                    (Scene.world_of [Scene.frame_box_cone]) with
    | [] => []
    | _ :: _ =>
        [((m_output_directory (Scene.fresh "/tmp/out/")
             ++ "02-ObjectCandidates")%string,
          extracted Scene.collaborators (Scene.fresh "/tmp/out/")
                    (Scene.world_of [Scene.frame_box_cone]))]
    end /\
  forall i c,
    nth_error
      (extracted Scene.collaborators (Scene.fresh "/tmp/out/")
                 (Scene.world_of [Scene.frame_box_cone])) i = Some c ->
    exists mesh,
      nth_error
        (mesh_calls
           (trace Scene.collaborators (Scene.fresh "/tmp/out/")
                  (Scene.world_of [Scene.frame_box_cone]) {| success := false |})) i
      = Some ((m_output_directory (Scene.fresh "/tmp/out/")
                 ++ "03-ObjectCandidate-" ++ to_string (Z.of_nat i))%string,
              c, mesh).
Proof.
  apply (artifact_names Scene.collaborators).
Defined.

(** The artifacts as they land on the scene's disk. *)
Example scene_files_written :
  map fst
    (Scene.files
       (world_after Scene.collaborators (Scene.fresh "/tmp/out/")
                    (Scene.world_of [Scene.frame_box_cone]) {| success := false |}))
  = ["/tmp/out/01-AccumulatedPointCloud"; "/tmp/out/02-ObjectCandidates";
     "/tmp/out/03-ObjectCandidate-0"; "/tmp/out/03-ObjectCandidate-1"]%string.
Proof. reflexivity. Qed.

Lemma response_independent_of_prior_fields_witness :
  m_output_directory (Scene.fresh "/tmp/out/")
  = m_output_directory (Scene.stale "/tmp/out/" [Scene.speck] Scene.frame_box_cone) /\
  (responded Scene.collaborators (Scene.fresh "/tmp/out/")
             (Scene.world_of [Scene.frame_box]) {| success := false |}
   = responded Scene.collaborators
               (Scene.stale "/tmp/out/" [Scene.speck] Scene.frame_box_cone)
               (Scene.world_of [Scene.frame_box]) {| success := true |} /\
   returned Scene.collaborators (Scene.fresh "/tmp/out/")
            (Scene.world_of [Scene.frame_box]) {| success := false |}
   = returned Scene.collaborators
              (Scene.stale "/tmp/out/" [Scene.speck] Scene.frame_box_cone)
              (Scene.world_of [Scene.frame_box]) {| success := true |} /\
   trace Scene.collaborators (Scene.fresh "/tmp/out/")
         (Scene.world_of [Scene.frame_box]) {| success := false |}
   = trace Scene.collaborators
           (Scene.stale "/tmp/out/" [Scene.speck] Scene.frame_box_cone)
           (Scene.world_of [Scene.frame_box]) {| success := true |} /\
   world_after Scene.collaborators (Scene.fresh "/tmp/out/")
               (Scene.world_of [Scene.frame_box]) {| success := false |}
   = world_after Scene.collaborators
                 (Scene.stale "/tmp/out/" [Scene.speck] Scene.frame_box_cone)
                 (Scene.world_of [Scene.frame_box]) {| success := true |} /\
   m_resulting_cloud
     (node_after Scene.collaborators (Scene.fresh "/tmp/out/")
                 (Scene.world_of [Scene.frame_box]) {| success := false |})
   = m_resulting_cloud
       (node_after Scene.collaborators
                   (Scene.stale "/tmp/out/" [Scene.speck] Scene.frame_box_cone)
                   (Scene.world_of [Scene.frame_box]) {| success := true |}) /\
   m_object_candidates
     (node_after Scene.collaborators (Scene.fresh "/tmp/out/")
                 (Scene.world_of [Scene.frame_box]) {| success := false |})
   = m_object_candidates
       (node_after Scene.collaborators
                   (Scene.stale "/tmp/out/" [Scene.speck] Scene.frame_box_cone)
                   (Scene.world_of [Scene.frame_box]) {| success := true |})).
Proof.
  split.
  - reflexivity.
  - apply (response_independent_of_prior_fields Scene.collaborators).
    reflexivity.
Defined.

(** The mesh of the first candidate of that run is in no field afterwards:
    the one mesh field holds the mesh of the box, the last candidate. *)
Example scene_earlier_mesh_not_retained :
  built_meshes
    (trace Scene.collaborators (Scene.fresh "/tmp/out/")
           (Scene.world_of [Scene.frame_box_cone]) {| success := false |})
  = [fst (Scene.convert "" Scene.cone (Scene.world_of []));
     fst (Scene.convert "" Scene.box (Scene.world_of []))] /\
  m_operating_mesh
    (node_after Scene.collaborators (Scene.fresh "/tmp/out/")
                (Scene.world_of [Scene.frame_box_cone]) {| success := false |})
  = fst (Scene.convert "" Scene.box (Scene.world_of [])) /\
  fst (Scene.convert "" Scene.cone (Scene.world_of []))
  <> fst (Scene.convert "" Scene.box (Scene.world_of [])).
Proof. repeat split. vm_compute. discriminate. Qed.

(** ** Further properties of the handler *)

(** *** The call log against the world *)

Section ReplayFacts.

Context {PointCloud PCLMesh World : Type}.
Variable C : Collaborators PointCloud PCLMesh World.

Implicit Types n : object_reconstruction_node PointCloud PCLMesh.
Implicit Types m : Machine PointCloud PCLMesh World.
Implicit Types w : World.

Lemma replays_snoc w t w' e w'' :
  replays C w t w' -> answers C w' e w'' -> replays C w (t ++ [e]) w''.
Proof.
  induction 1 as [w|w e0 w1 t w2 Ha Hr IH]; intros He; cbn.
  - econstructor; [exact He|constructor].
  - econstructor; [exact Ha|]. now apply IH.
Qed.

(** One pass, and then the whole loop, keep the log in step with the
    world. *)
Lemma mesh_pass_replays i c m w0 :
  replays C w0 (calls m) (world m) ->
  replays C w0 (calls (snd (mesh_pass C i c m))) (world (snd (mesh_pass C i c m))).
Proof.
  intros H. rewrite mesh_pass_eq. cbn.
  eapply replays_snoc; [exact H|]. constructor.
Qed.

Lemma mesh_loop_replays rest : forall i m w0,
  replays C w0 (calls m) (world m) ->
  replays C w0 (calls (snd (mesh_loop C i rest m)))
          (world (snd (mesh_loop C i rest m))).
Proof.
  induction rest as [|c rest IH]; intros i m w0 H.
  - now rewrite mesh_loop_nil.
  - rewrite mesh_loop_cons. apply IH. now apply mesh_pass_replays.
Qed.

Lemma after_extraction_replays n w :
  replays C w (calls (after_extraction C n w)) (world (after_extraction C n w)).
Proof.
  unfold after_extraction, extracted, extraction, accumulated. cbn.
  repeat (econstructor; [constructor|]). constructor.
Qed.

Lemma loop_entry_replays n w :
  replays C w (calls (loop_entry C n w)) (world (loop_entry C n w)).
Proof.
  unfold loop_entry. cbn [calls world].
  pose proof (after_extraction_replays n w) as H.
  change (calls (after_extraction C n w)
            ++ [EvPublishObjectCandidates (extracted C n w);
                EvWriteMultipleToPCD
                  (m_output_directory n ++ "02-ObjectCandidates")%string
                  (extracted C n w)])
    with (calls (after_extraction C n w)
            ++ [EvPublishObjectCandidates (extracted C n w)]
            ++ [EvWriteMultipleToPCD
                  (m_output_directory n ++ "02-ObjectCandidates")%string
                  (extracted C n w)]).
  rewrite app_assoc.
  eapply replays_snoc; [eapply replays_snoc; [exact H|]|]; constructor.
Qed.

(** X3: the call log of a call is complete and exact.  Making the logged
    calls one after the other, from the world the call started in, returns
    at every call the value the log records and ends in the world the
    handler leaves: the handler touches the world through the logged
    collaborator calls only, in the order of the log. *)
Theorem log_replays_to_final_world n w response :
  replays C w (trace C n w response) (world_after C n w response).
Proof.
  unfold trace, world_after.
  destruct (extracted C n w) as [|c0 cs] eqn:E.
  - rewrite (service_call_no_candidates C n w response E). cbn [snd].
    apply after_extraction_replays.
  - assert (extracted C n w <> []) as Hne by congruence.
    rewrite (service_call_candidates C n w response Hne). cbn [snd].
    apply mesh_loop_replays, loop_entry_replays.
Qed.

(** X1: when there are candidates, the whole sequence is published once and
    written once, in this order, right after the extraction and before the
    first mesh is built; the rest of the log is one mesh-builder call per
    candidate. *)
Theorem candidates_announced_before_meshing n w response :
  extracted C n w <> [] ->
  exists evs,
    trace C n w response
    = [EvAccumulatePointClouds 1 (accumulated C w);
       EvWriteToPCD (m_output_directory n ++ "01-AccumulatedPointCloud")%string
                    (accumulated C w);
       EvExtractCandidateObjects (m_output_directory n ++ "00-Debugging")%string
                                 (accumulated C w) (extracted C n w);
       EvPublishObjectCandidates (extracted C n w);
       EvWriteMultipleToPCD (m_output_directory n ++ "02-ObjectCandidates")%string
                            (extracted C n w)]
      ++ evs /\
    forallb is_meshing evs = true /\
    List.length evs = List.length (extracted C n w).
Proof.
  intros H.
  destruct (trace_shape C n w response) as (evs & Ht & Hm & Hl & _).
  exists evs. split; [|split; assumption].
  rewrite Ht. unfold after_extraction. cbn [calls].
  destruct (extracted C n w); [congruence|]. reflexivity.
Qed.

(** X2: a call without candidates does not touch the mesh field.  After it
    the node holds the unchanged output directory, the empty candidate
    sequence, the cloud of this call and the mesh an earlier call left, and
    the world is as the extraction left it. *)
Theorem empty_run_keeps_operating_mesh n w response :
  extracted C n w = [] ->
  node_after C n w response
  = {| m_output_directory := m_output_directory n;
       m_object_candidates := [];
       m_resulting_cloud := accumulated C w;
       m_operating_mesh := m_operating_mesh n |} /\
  world_after C n w response = snd (extraction C n w).
Proof.
  intros H. unfold node_after, world_after.
  rewrite (service_call_no_candidates C n w response H).
  unfold after_extraction. rewrite H. cbn. auto.
Qed.

End ReplayFacts.

(** *** File names *)

Section NameFacts.

Context {PointCloud PCLMesh World : Type}.
Variable C : Collaborators PointCloud PCLMesh World.

Implicit Types n : object_reconstruction_node PointCloud PCLMesh.
Implicit Types w : World.

Lemma names_used_app (t u : list (Event PointCloud PCLMesh)) :
  names_used (t ++ u) = names_used t ++ names_used u.
Proof.
  induction t as [|e t IH]; [reflexivity|].
  cbn. destruct (event_name e); cbn; now rewrite IH.
Qed.

Lemma names_used_meshing (t : list (Event PointCloud PCLMesh)) :
  forallb is_meshing t = true ->
  names_used t = map (fun x => fst (fst x)) (mesh_calls t).
Proof.
  induction t as [|e t IH]; [reflexivity|].
  destruct e; cbn; try discriminate. intros H. now rewrite IH.
Qed.

Lemma names_of_call n w response :
  names_used (trace C n w response)
  = names_for (m_output_directory n) (List.length (extracted C n w)).
Proof.
  destruct (trace_shape C n w response) as (evs & Ht & Hm & Hl & Hn & _).
  assert (names_used
            match extracted C n w with
            | [] => []
            | _ :: _ =>
                [EvPublishObjectCandidates (PCLMesh:=PCLMesh) (extracted C n w);
                 EvWriteMultipleToPCD
                   (m_output_directory n ++ "02-ObjectCandidates")%string
                   (extracted C n w)]
            end
          = match List.length (extracted C n w) with
            | O => []
            | S _ => [(m_output_directory n ++ "02-ObjectCandidates")%string]
            end) as Hannounce.
  { destruct (extracted C n w); reflexivity. }
  assert (map (fun x => fst (fst x)) (mesh_calls evs)
          = map (fun i => (m_output_directory n ++ "03-ObjectCandidate-"
                             ++ to_string (Z.of_nat i))%string)
                (seq 0 (List.length (extracted C n w)))) as Hmeshes.
  { apply nth_error_ext. intros k.
    rewrite !nth_error_map.
    destruct (nth_error (extracted C n w) k) as [c|] eqn:E.
    - destruct (Hn k c E) as (w' & Hw').
      rewrite (mesh_calls_nth evs k _ _ _ Hm Hw').
      assert (k < List.length (extracted C n w))%nat as Hk
        by (apply nth_error_Some; congruence).
      rewrite (nth_error_nth' _ O) by (now rewrite length_seq).
      rewrite seq_nth by exact Hk. reflexivity.
    - apply nth_error_None in E.
      destruct (only_meshing_observations evs Hm) as (_ & _ & _ & _ & _ & _ & Hlen).
      assert (nth_error (mesh_calls evs) k = None) as ->
        by (apply nth_error_None; lia).
      assert (nth_error (seq 0 (List.length (extracted C n w))) k = None) as ->
        by (apply nth_error_None; rewrite length_seq; lia).
      reflexivity. }
  rewrite Ht, !names_used_app, (names_used_meshing evs Hm), Hannounce, Hmeshes.
  reflexivity.
Qed.

Lemma names_for_NoDup (directory : string) (count : nat) :
  NoDup (names_for directory count).
Proof.
  assert (NoDup (map (fun i => (directory ++ "03-ObjectCandidate-"
                                  ++ to_string (Z.of_nat i))%string)
                     (seq 0 count))) as Hmesh.
  { apply NoDup_map_NoDup_ForallPairs; [|apply seq_NoDup].
    intros i j _ _ H. apply candidate_artifact_inj in H. lia. }
  assert (forall label,
             (forall s, label <> ("03-ObjectCandidate-" ++ s)%string) ->
             ~ In (directory ++ label)%string
                  (map (fun i => (directory ++ "03-ObjectCandidate-"
                                    ++ to_string (Z.of_nat i))%string)
                       (seq 0 count))) as Hother.
  { intros label Hl Hin. apply in_map_iff in Hin as (i & Hi & _).
    apply append_inj_l in Hi. now apply (Hl (to_string (Z.of_nat i))). }
  unfold names_for. destruct count as [|count].
  - cbn. repeat constructor; cbn; try tauto.
    intros [H|[]]. apply append_inj_l in H. discriminate.
  - cbn [app]. constructor; [|constructor; [|constructor]]; try exact Hmesh.
    + intros [H|[H|H]].
      * apply append_inj_l in H. discriminate.
      * apply append_inj_l in H. discriminate.
      * revert H. apply Hother. intros s; cbn; discriminate.
    + intros [H|H].
      * apply append_inj_l in H. discriminate.
      * revert H. apply Hother. intros s; cbn; discriminate.
    + apply Hother. intros s; cbn; discriminate.
Qed.

(** X4: within one call no file name is used twice: the names given to the
    cloud write, the extraction, the candidate-set write and the mesh
    builder for each candidate are pairwise distinct, so that no artifact of
    a call overwrites another artifact of the same call. *)
Theorem names_of_one_call_distinct n w response :
  NoDup (names_used (trace C n w response)).
Proof. rewrite names_of_call. apply names_for_NoDup. Qed.

(** X5: the names carry nothing of the call itself.  Two calls from the same
    output directory that find the same number of candidates, in whatever
    worlds and with whatever clouds, use the same file names in the same
    order: the later call writes over the artifacts of the earlier one. *)
Theorem names_repeat_across_calls n1 n2 w1 w2 response1 response2 :
  m_output_directory n1 = m_output_directory n2 ->
  List.length (extracted C n1 w1) = List.length (extracted C n2 w2) ->
  names_used (trace C n1 w1 response1) = names_used (trace C n2 w2 response2).
Proof. intros Hd Hl. rewrite !names_of_call. now rewrite Hd, Hl. Qed.

End NameFacts.

(** *** Calls in a row *)

Section SessionFacts.

Context {PointCloud PCLMesh World : Type}.
Variable C : Collaborators PointCloud PCLMesh World.

Implicit Types n : object_reconstruction_node PointCloud PCLMesh.
Implicit Types w : World.
Implicit Types incoming : list ((World -> World) * Response).

Lemma service_call_same_directory n1 n2 w response :
  m_output_directory n1 = m_output_directory n2 ->
  fst (service_call C n1 w response) = fst (service_call C n2 w response) /\
  calls (snd (service_call C n1 w response))
  = calls (snd (service_call C n2 w response)) /\
  world (snd (service_call C n1 w response))
  = world (snd (service_call C n2 w response)) /\
  m_output_directory (node (snd (service_call C n1 w response)))
  = m_output_directory (node (snd (service_call C n2 w response))).
Proof.
  intros H.
  destruct (service_call_alike C n1 n2 w response response H) as (Hd & Hw & Hc).
  repeat split; auto.
  pose proof (outcome C n1 w response) as (Hr1 & Hs1).
  pose proof (outcome C n2 w response) as (Hr2 & Hs2).
  unfold returned, responded in *.
  assert (extracted C n1 w = extracted C n2 w) as He.
  { unfold extracted. now rewrite (extraction_same_directory C n1 n2 w H). }
  rewrite He in *.
  destruct (fst (service_call C n1 w response)),
           (fst (service_call C n2 w response)).
  cbn in *. congruence.
Qed.

(** X6: however many calls are handled, and whatever they find, the output
    directory of the node stays the one it started with. *)
Theorem session_keeps_output_directory incoming : forall n w,
  m_output_directory (fst (snd (session C incoming n w))) = m_output_directory n.
Proof.
  induction incoming as [|[arrive response] later IH]; intros n w;
    [reflexivity|].
  cbn [session snd]. rewrite IH.
  apply (fields_after C n (arrive w) response).
Qed.

(** X7: the fields a call leaves behind do not reach the calls after it.
    Started from two nodes with the same output directory, a sequence of
    calls gives, call by call, the same returned booleans, the same
    responses and the same call logs, and ends in the same world. *)
Theorem session_independent_of_prior_fields incoming : forall n1 n2 w,
  m_output_directory n1 = m_output_directory n2 ->
  fst (session C incoming n1 w) = fst (session C incoming n2 w) /\
  snd (snd (session C incoming n1 w)) = snd (snd (session C incoming n2 w)).
Proof.
  induction incoming as [|[arrive response] later IH]; intros n1 n2 w H;
    [split; reflexivity|].
  cbn [session fst snd].
  destruct (service_call_same_directory n1 n2 (arrive w) response H)
    as (Hf & Hc & Hw & Hd).
  rewrite Hf, Hc, Hw.
  destruct (IH _ _ (world (snd (service_call C n2 (arrive w) response))) Hd)
    as (-> & ->).
  split; reflexivity.
Qed.

End SessionFacts.

(** *** The fields against the log *)

Section FieldsAndLog.

Context {PointCloud PCLMesh World : Type}.
Variable C : Collaborators PointCloud PCLMesh World.

Implicit Types n : object_reconstruction_node PointCloud PCLMesh.
Implicit Types w : World.

Lemma filter_none {A : Type} (p : A -> bool) (l : list A) :
  forallb (fun x => negb (p x)) l = true -> filter p l = [].
Proof.
  induction l as [|a l IH]; [reflexivity|]. cbn.
  destruct (p a); cbn; [discriminate|exact IH].
Qed.

(** X8: every call runs the extraction exactly once, under the name ending
    in 00-Debugging, and the two cloud fields agree with that one call: its
    argument is the cloud left in m_resulting_cloud, the cloud written under
    01-AccumulatedPointCloud, and its result is the sequence left in
    m_object_candidates. *)
Theorem extraction_once_and_fields_agree n w response :
  filter is_extraction (trace C n w response)
  = [EvExtractCandidateObjects
       (m_output_directory n ++ "00-Debugging")%string
       (m_resulting_cloud (node_after C n w response))
       (m_object_candidates (node_after C n w response))] /\
  written_clouds (trace C n w response)
  = [((m_output_directory n ++ "01-AccumulatedPointCloud")%string,
      m_resulting_cloud (node_after C n w response))].
Proof.
  destruct (fields_after C n w response) as (_ & -> & ->).
  destruct (trace_observations C n w response) as (_ & Hw & _).
  split; [|exact Hw].
  destruct (trace_shape C n w response) as (evs & -> & Hm & _).
  destruct (only_meshing_observations evs Hm) as (_ & _ & _ & _ & _ & Hx & _).
  rewrite !filter_app, (filter_none _ _ Hx).
  unfold after_extraction. cbn [calls].
  destruct (extracted C n w); reflexivity.
Qed.

End FieldsAndLog.

(** ** Further runs on the concrete scene *)

Lemma candidates_announced_before_meshing_witness :
  extracted Scene.collaborators (Scene.fresh "/tmp/out/")
            (Scene.world_of [Scene.frame_box_cone]) <> [] /\
  exists evs,
    trace Scene.collaborators (Scene.fresh "/tmp/out/")
          (Scene.world_of [Scene.frame_box_cone]) {| success := false |}
    = [EvAccumulatePointClouds 1
         (accumulated Scene.collaborators (Scene.world_of [Scene.frame_box_cone]));
       EvWriteToPCD
         (m_output_directory (Scene.fresh "/tmp/out/")
            ++ "01-AccumulatedPointCloud")%string
         (accumulated Scene.collaborators (Scene.world_of [Scene.frame_box_cone]));
       EvExtractCandidateObjects
         (m_output_directory (Scene.fresh "/tmp/out/") ++ "00-Debugging")%string
         (accumulated Scene.collaborators (Scene.world_of [Scene.frame_box_cone]))
         (extracted Scene.collaborators (Scene.fresh "/tmp/out/")
                    (Scene.world_of [Scene.frame_box_cone]));
       EvPublishObjectCandidates
         (extracted Scene.collaborators (Scene.fresh "/tmp/out/")
                    (Scene.world_of [Scene.frame_box_cone]));
       EvWriteMultipleToPCD
         (m_output_directory (Scene.fresh "/tmp/out/")
            ++ "02-ObjectCandidates")%string
         (extracted Scene.collaborators (Scene.fresh "/tmp/out/")
                    (Scene.world_of [Scene.frame_box_cone]))]
      ++ evs /\
    forallb is_meshing evs = true /\
    List.length evs
    = List.length
        (extracted Scene.collaborators (Scene.fresh "/tmp/out/")
                   (Scene.world_of [Scene.frame_box_cone])).
Proof.
  split.
  - vm_compute. discriminate.
  - apply (candidates_announced_before_meshing Scene.collaborators).
    vm_compute. discriminate.
Defined.

Lemma empty_run_keeps_operating_mesh_witness :
  extracted Scene.collaborators
            (Scene.stale "/tmp/out/" [Scene.box] Scene.frame_box)
            (Scene.world_of [Scene.table]) = [] /\
  (node_after Scene.collaborators
              (Scene.stale "/tmp/out/" [Scene.box] Scene.frame_box)
              (Scene.world_of [Scene.table]) {| success := false |}
   = {| m_output_directory :=
          m_output_directory (Scene.stale "/tmp/out/" [Scene.box] Scene.frame_box);
        m_object_candidates := [];
        m_resulting_cloud :=
          accumulated Scene.collaborators (Scene.world_of [Scene.table]);
        m_operating_mesh :=
          m_operating_mesh (Scene.stale "/tmp/out/" [Scene.box] Scene.frame_box) |} /\
   world_after Scene.collaborators
               (Scene.stale "/tmp/out/" [Scene.box] Scene.frame_box)
               (Scene.world_of [Scene.table]) {| success := false |}
   = snd (extraction Scene.collaborators
                     (Scene.stale "/tmp/out/" [Scene.box] Scene.frame_box)
                     (Scene.world_of [Scene.table]))).
Proof.
  split.
  - reflexivity.
  - apply (empty_run_keeps_operating_mesh Scene.collaborators). reflexivity.
Defined.

Lemma names_repeat_across_calls_witness :
  m_output_directory (Scene.fresh "/tmp/out/")
  = m_output_directory (Scene.stale "/tmp/out/" [Scene.box] Scene.frame_box) /\
  List.length
    (extracted Scene.collaborators (Scene.fresh "/tmp/out/")
               (Scene.world_of [Scene.frame_box_cone]))
  = List.length
      (extracted Scene.collaborators
                 (Scene.stale "/tmp/out/" [Scene.box] Scene.frame_box)
                 (Scene.world_of [Scene.frame_box_speck])) /\
  names_used
    (trace Scene.collaborators (Scene.fresh "/tmp/out/")
           (Scene.world_of [Scene.frame_box_cone]) {| success := false |})
  = names_used
      (trace Scene.collaborators
             (Scene.stale "/tmp/out/" [Scene.box] Scene.frame_box)
             (Scene.world_of [Scene.frame_box_speck]) {| success := true |}).
Proof.
  split; [reflexivity|]. split; [reflexivity|].
  apply (names_repeat_across_calls Scene.collaborators); reflexivity.
Defined.

Lemma session_independent_of_prior_fields_witness :
  m_output_directory (Scene.fresh "/tmp/out/")
  = m_output_directory (Scene.stale "/tmp/out/" [Scene.speck] Scene.frame_box_cone) /\
  (fst (session Scene.collaborators
          [(frames_arrive [Scene.frame_box_cone], {| success := false |});
           (frames_arrive [], {| success := false |});
           (frames_arrive [Scene.frame_speck], {| success := true |})]
          (Scene.fresh "/tmp/out/") (Scene.world_of []))
   = fst (session Scene.collaborators
            [(frames_arrive [Scene.frame_box_cone], {| success := false |});
             (frames_arrive [], {| success := false |});
             (frames_arrive [Scene.frame_speck], {| success := true |})]
            (Scene.stale "/tmp/out/" [Scene.speck] Scene.frame_box_cone)
            (Scene.world_of [])) /\
   snd (snd (session Scene.collaborators
               [(frames_arrive [Scene.frame_box_cone], {| success := false |});
                (frames_arrive [], {| success := false |});
                (frames_arrive [Scene.frame_speck], {| success := true |})]
               (Scene.fresh "/tmp/out/") (Scene.world_of [])))
   = snd (snd (session Scene.collaborators
                 [(frames_arrive [Scene.frame_box_cone], {| success := false |});
                  (frames_arrive [], {| success := false |});
                  (frames_arrive [Scene.frame_speck], {| success := true |})]
                 (Scene.stale "/tmp/out/" [Scene.speck] Scene.frame_box_cone)
                 (Scene.world_of [])))).
Proof.
  split.
  - reflexivity.
  - apply (session_independent_of_prior_fields Scene.collaborators).
    reflexivity.
Defined.

(** Three calls in a row: candidates found, then no frame on the stream,
    then a stray point.  The answers are success, failure, success; after
    the second call the node holds no candidate but still the mesh of the
    box from the first. *)
Example scene_three_calls :
  map (fun outcome => fst (fst outcome))
    (fst (session Scene.collaborators
            [(frames_arrive [Scene.frame_box_cone], {| success := false |});
             (frames_arrive [], {| success := false |});
             (frames_arrive [Scene.frame_speck], {| success := true |})]
            (Scene.fresh "/tmp/out/") (Scene.world_of [])))
  = [true; false; true] /\
  fst (snd (session Scene.collaborators
              [(frames_arrive [Scene.frame_box_cone], {| success := false |});
               (frames_arrive [], {| success := false |})]
              (Scene.fresh "/tmp/out/") (Scene.world_of [])))
  = {| m_output_directory := "/tmp/out/";
       m_object_candidates := [];
       m_resulting_cloud := [];
       m_operating_mesh := fst (Scene.convert "" Scene.box (Scene.world_of [])) |}.
Proof. split; reflexivity. Qed.


(** ** The handler with collaborators that may throw: properties *)

Section ThrowingFacts.

Context {PointCloud PCLMesh World Exception : Type}.
Variable C : Throwing.Collaborators PointCloud PCLMesh World Exception.

Implicit Types n : object_reconstruction_node PointCloud PCLMesh.
Implicit Types m : Throwing.Machine PointCloud PCLMesh World.
Implicit Types w : World.

(** The call the loop makes for the candidate numbered [fst ic]. *)
Local Abbreviation conversion directory :=
  (fun ic : nat * PointCloud =>
     Throwing.CallConvertCloudToMesh
       (directory ++ "03-ObjectCandidate-" ++ to_string (Z.of_nat (fst ic)))%string
       (snd ic)).


(** One pass: the mesh builder is called in the current world; if it
    returns, its mesh is stored, if it throws, the pass ends there. *)
Lemma mesh_pass_eq_throwing i c m :
  Throwing.mesh_pass C i c m =
  let name := (m_output_directory (Throwing.node m) ++ "03-ObjectCandidate-"
                 ++ to_string i)%string in
  let r := Throwing.ConvertCloudToMesh C name c (Throwing.world m) in
  match fst r with
  | Throwing.Returns mesh =>
      (Throwing.Returns tt,
       {| Throwing.node := set_m_operating_mesh mesh (Throwing.node m);
          Throwing.world := snd r;
          Throwing.calls :=
            Throwing.calls m ++ [Throwing.CallConvertCloudToMesh name c];
          Throwing.response := Throwing.response m |})
  | Throwing.Throws e =>
      (Throwing.Throws e,
       {| Throwing.node := Throwing.node m;
          Throwing.world := snd r;
          Throwing.calls :=
            Throwing.calls m ++ [Throwing.CallConvertCloudToMesh name c];
          Throwing.response := Throwing.response m |})
  end.
Proof.
  unfold Throwing.mesh_pass, Throwing.bind, Throwing.invoke,
    Throwing.this_m_output_directory, Throwing.field, Throwing.assign.
  cbn.
  destruct (fst (Throwing.ConvertCloudToMesh C _ c (Throwing.world m)));
    reflexivity.
Qed.

Lemma mesh_loop_cons_throwing i c rest m :
  Throwing.mesh_loop C i (c :: rest) m =
  match fst (Throwing.mesh_pass C i c m) with
  | Throwing.Returns _ =>
      Throwing.mesh_loop C (i + 1) rest (snd (Throwing.mesh_pass C i c m))
  | Throwing.Throws e => (Throwing.Throws e, snd (Throwing.mesh_pass C i c m))
  end.
Proof. reflexivity. Qed.


End ThrowingFacts.

Section ThrowingHandlerFacts.

Context {PointCloud PCLMesh World Exception : Type}.
Variable C : Throwing.Collaborators PointCloud PCLMesh World Exception.

Implicit Types n : object_reconstruction_node PointCloud PCLMesh.
Implicit Types w : World.
Implicit Types passed : Response.

(** The run up to the loop, when the five calls before it return. *)
Lemma service_call_reaches_loop n w passed cloud candidates w1 w2 w3 w4 w5 :
  Throwing.AccumulatePointClouds C 1 w = (Throwing.Returns cloud, w1) ->
  Throwing.WriteToPCD C (m_output_directory n ++ "01-AccumulatedPointCloud")%string
                      cloud w1 = (Throwing.Returns tt, w2) ->
  Throwing.ExtractCandidateObjects C (m_output_directory n ++ "00-Debugging")%string
                                   cloud w2 = (Throwing.Returns candidates, w3) ->
  Throwing.PublishObjectCandidates C candidates w3 = (Throwing.Returns tt, w4) ->
  Throwing.WriteMultipleToPCD C (m_output_directory n ++ "02-ObjectCandidates")%string
                              candidates w4 = (Throwing.Returns tt, w5) ->
  candidates <> [] ->
  Throwing.service_call C n w passed
  = Throwing.bind (Throwing.mesh_loop C 0 candidates)
      (fun _ => Throwing.bind (Throwing.assign_success true)
                  (fun _ => Throwing.response_success))
      {| Throwing.node :=
           set_m_object_candidates candidates (set_m_resulting_cloud cloud n);
         Throwing.world := w5;
         Throwing.calls :=
           [Throwing.CallAccumulatePointClouds 1;
            Throwing.CallWriteToPCD
              (m_output_directory n ++ "01-AccumulatedPointCloud")%string cloud;
            Throwing.CallExtractCandidateObjects
              (m_output_directory n ++ "00-Debugging")%string cloud;
            Throwing.CallPublishObjectCandidates candidates;
            Throwing.CallWriteMultipleToPCD
              (m_output_directory n ++ "02-ObjectCandidates")%string candidates];
         Throwing.response := passed |}.
Proof.
  intros H1 H2 H3 H4 H5 Hne.
  unfold Throwing.service_call, Throwing.FixOcclusions.
  unfold Throwing.bind, Throwing.invoke, Throwing.assign,
    Throwing.this_m_output_directory, Throwing.this_m_resulting_cloud,
    Throwing.this_m_object_candidates, Throwing.field.
  cbn [fst snd Throwing.world Throwing.node Throwing.calls Throwing.response].
  rewrite H1.
  cbn [fst snd Throwing.world Throwing.node Throwing.calls Throwing.response
       set_m_resulting_cloud m_resulting_cloud m_output_directory].
  rewrite H2.
  cbn [fst snd Throwing.world Throwing.node Throwing.calls Throwing.response
       set_m_resulting_cloud m_resulting_cloud m_output_directory].
  rewrite H3.
  cbn [fst snd Throwing.world Throwing.node Throwing.calls Throwing.response
       set_m_object_candidates m_object_candidates m_output_directory].
  destruct candidates as [|c0 cs]; [congruence|].
  cbn -[Throwing.mesh_loop].
  rewrite H4. cbn -[Throwing.mesh_loop].
  rewrite H5. cbn -[Throwing.mesh_loop].
  reflexivity.
Qed.



(** C5: when the accumulator throws, the exception leaves the handler: the
    handler returns no value and assigns nothing, so that the response is
    the object as the transport passed it in and the node is unchanged; the
    accumulation is the only call made, and no extraction, meshing or
    occlusion call follows it. *)
Theorem accumulation_failure_aborts_run n w passed e :
  fst (Throwing.AccumulatePointClouds C 1 w) = Throwing.Throws e ->
  fst (Throwing.service_call C n w passed) = Throwing.Throws e /\
  Throwing.calls (snd (Throwing.service_call C n w passed))
  = [Throwing.CallAccumulatePointClouds 1] /\
  forallb (fun c => negb (Throwing.extracts_or_meshes c))
          (Throwing.calls (snd (Throwing.service_call C n w passed))) = true /\
  Throwing.world (snd (Throwing.service_call C n w passed))
  = snd (Throwing.AccumulatePointClouds C 1 w) /\
  Throwing.node (snd (Throwing.service_call C n w passed)) = n /\
  Throwing.response (snd (Throwing.service_call C n w passed)) = passed.
Proof.
  intros H.
  unfold Throwing.service_call, Throwing.FixOcclusions.
  unfold Throwing.bind, Throwing.invoke, Throwing.this_m_output_directory,
    Throwing.field.
  cbn [fst snd Throwing.world Throwing.node Throwing.calls Throwing.response].
  rewrite H. cbn. auto 10.
Qed.

End ThrowingHandlerFacts.

(** *** Collaborators that never throw *)

Section NeverThrowing.

Context {PointCloud PCLMesh World Exception : Type}.
Variable C : Collaborators PointCloud PCLMesh World.

Implicit Types n : object_reconstruction_node PointCloud PCLMesh.
Implicit Types w : World.
Implicit Types passed : Response.

Lemma calls_of_app (t u : list (Event PointCloud PCLMesh)) :
  calls_of (t ++ u) = calls_of t ++ calls_of u.
Proof.
  induction t as [|e t IH]; [reflexivity|].
  destruct e; cbn; rewrite ?IH; reflexivity.
Qed.

Lemma mesh_loop_never_throwing rest :
  forall i (m : Machine PointCloud PCLMesh World) passed,
    Throwing.mesh_loop (Exception := Exception) (never_throwing C) i rest
      {| Throwing.node := node m;
         Throwing.world := world m;
         Throwing.calls := calls_of (calls m);
         Throwing.response := passed |}
    = (Throwing.Returns tt,
       {| Throwing.node := node (snd (mesh_loop C i rest m));
          Throwing.world := world (snd (mesh_loop C i rest m));
          Throwing.calls := calls_of (calls (snd (mesh_loop C i rest m)));
          Throwing.response := passed |}).
Proof.
  induction rest as [|c rest IH]; intros i m passed; [reflexivity|].
  rewrite mesh_loop_cons_throwing, mesh_pass_eq_throwing.
  cbn [never_throwing Throwing.ConvertCloudToMesh fst snd Throwing.node
       Throwing.world Throwing.calls Throwing.response].
  rewrite mesh_loop_cons.
  rewrite <- (IH (i + 1) (snd (mesh_pass C i c m)) passed).
  rewrite mesh_pass_eq. cbn [node world calls].
  rewrite calls_of_app. reflexivity.
Qed.

(** With collaborators that never throw, the handler with the exit is the
    handler without it: it returns, with the same result, response, node,
    world and calls. *)
Lemma never_throwing_service_call n w passed :
  Throwing.service_call (Exception := Exception) (never_throwing C) n w passed
  = (Throwing.Returns (returned C n w passed),
     {| Throwing.node := node_after C n w passed;
        Throwing.world := world_after C n w passed;
        Throwing.calls := calls_of (trace C n w passed);
        Throwing.response := responded C n w passed |}).
Proof.
  unfold returned, responded, node_after, world_after, trace.
  destruct (extracted C n w) as [|c0 cs] eqn:E.
  - rewrite (service_call_no_candidates C n w passed E).
    unfold Throwing.service_call, Throwing.FixOcclusions, Throwing.bind,
      Throwing.invoke, Throwing.assign, Throwing.this_m_output_directory,
      Throwing.this_m_resulting_cloud, Throwing.this_m_object_candidates,
      Throwing.field.
    unfold after_extraction, extracted, extraction, accumulated in *.
    cbn -[Throwing.mesh_loop] in *.
    rewrite !E. cbn. rewrite ?E. reflexivity.
  - assert (extracted C n w <> []) as Hne by congruence.
    rewrite (service_call_candidates C n w passed Hne).
    rewrite (service_call_reaches_loop (never_throwing C) n w passed
               (accumulated C w) (extracted C n w)
               (snd (AccumulatePointClouds C 1 w))
               (WriteToPCD C (m_output_directory n ++ "01-AccumulatedPointCloud")%string
                           (accumulated C w) (snd (AccumulatePointClouds C 1 w)))
               (snd (extraction C n w))
               (PublishObjectCandidates C (extracted C n w) (snd (extraction C n w)))
               (world (loop_entry C n w))
               eq_refl eq_refl eq_refl eq_refl eq_refl Hne).
    unfold Throwing.bind at 1.
    change {| Throwing.node :=
                set_m_object_candidates (extracted C n w)
                  (set_m_resulting_cloud (accumulated C w) n);
              Throwing.world := world (loop_entry C n w);
              Throwing.calls := _;
              Throwing.response := passed |}
      with {| Throwing.node := node (loop_entry C n w);
              Throwing.world := world (loop_entry C n w);
              Throwing.calls := calls_of (calls (loop_entry C n w));
              Throwing.response := passed |}.
    rewrite mesh_loop_never_throwing. reflexivity.
Qed.

End NeverThrowing.

(** ** The result, the mesh field and the mesh builder *)

Section MeshField.

Context {PointCloud PCLMesh World : Type}.
Variable C : Collaborators PointCloud PCLMesh World.

Implicit Types n : object_reconstruction_node PointCloud PCLMesh.
Implicit Types w : World.
Implicit Types response : Response.

(** The last pass of the loop comes after the loop over the candidates
    before it. *)
Lemma mesh_loop_snoc init : forall i c (m : Machine PointCloud PCLMesh World),
  snd (mesh_loop C i (init ++ [c]) m)
  = snd (mesh_pass C (i + Z.of_nat (List.length init)) c
                   (snd (mesh_loop C i init m))).
Proof.
  induction init as [|c0 init IH]; intros i c m.
  - cbn [List.app List.length]. rewrite mesh_loop_cons, !mesh_loop_nil.
    now rewrite Z.add_0_r.
  - cbn [List.app List.length]. rewrite !mesh_loop_cons, IH.
    replace (i + 1 + Z.of_nat (List.length init))
      with (i + Z.of_nat (S (List.length init))) by lia.
    reflexivity.
Qed.

(** C1, as the code has it: the response's success field is true exactly
    when the candidate sequence is not empty.  So in a run that reaches the
    per-candidate stage it is true when some candidate reached a non-failed
    terminal state, and as well when every candidate failed.  Every
    candidate has one terminal state, and none of them enters the response:
    with any other mesh builder (and any other publishing and candidate
    writing) the response is the same. *)
Theorem success_ignores_candidate_states
        (empty_mesh : PCLMesh -> bool) n w response :
  (success (responded C n w response) = true <-> extracted C n w <> []) /\
  List.length (candidate_states empty_mesh (trace C n w response))
  = List.length (extracted C n w) /\
  (forall C' : Collaborators PointCloud PCLMesh World,
      AccumulatePointClouds C' = AccumulatePointClouds C ->
      WriteToPCD C' = WriteToPCD C ->
      ExtractCandidateObjects C' = ExtractCandidateObjects C ->
      responded C' n w response = responded C n w response).
Proof.
  split; [|split].
  - destruct (outcome C n w response) as (_ & ->). cbn.
    destruct (extracted C n w); cbn; split; congruence.
  - destruct (trace_mesh_calls C n w response) as (Hl & _).
    unfold candidate_states, built_meshes. now rewrite !length_map.
  - intros C' Ha Hw He.
    destruct (outcome C n w response) as (_ & ->).
    destruct (outcome C' n w response) as (_ & ->).
    unfold extracted, extraction, accumulated. now rewrite Ha, Hw, He.
Qed.

(** C2, as the code has it: the handler has no repair mode.  Under every
    configuration and in every run the log holds no call to the occlusion
    detection or to the repair, so that no repaired mesh exists.  In a run
    with exactly one candidate, the five calls up to the candidate write are
    followed by one call to the mesh builder, made under the name ending in
    03-ObjectCandidate-0 in the world those five calls left; the mesh it
    returns is the one left in m_operating_mesh, the world it leaves is the
    world after the run, and the response says success. *)
Theorem single_candidate_meshed_not_repaired
        (cfg : Configuration) n w response :
  (forallb (fun e => negb (is_occlusion e))
           (trace C (configure cfg n) w response) = true /\
   repaired_meshes (trace C (configure cfg n) w response) = []) /\
  (forall c,
      extracted C (configure cfg n) w = [c] ->
      exists w5,
        replays C w
          [EvAccumulatePointClouds 1 (accumulated C w);
           EvWriteToPCD (output_directory cfg ++ "01-AccumulatedPointCloud")%string
                        (accumulated C w);
           EvExtractCandidateObjects (output_directory cfg ++ "00-Debugging")%string
                                     (accumulated C w) [c];
           EvPublishObjectCandidates [c];
           EvWriteMultipleToPCD (output_directory cfg ++ "02-ObjectCandidates")%string
                                [c]]
          w5 /\
        trace C (configure cfg n) w response
        = [EvAccumulatePointClouds 1 (accumulated C w);
           EvWriteToPCD (output_directory cfg ++ "01-AccumulatedPointCloud")%string
                        (accumulated C w);
           EvExtractCandidateObjects (output_directory cfg ++ "00-Debugging")%string
                                     (accumulated C w) [c];
           EvPublishObjectCandidates [c];
           EvWriteMultipleToPCD (output_directory cfg ++ "02-ObjectCandidates")%string
                                [c];
           EvConvertCloudToMesh
             (output_directory cfg ++ "03-ObjectCandidate-0")%string c
             (fst (ConvertCloudToMesh C
                     (output_directory cfg ++ "03-ObjectCandidate-0")%string
                     c w5))] /\
        m_operating_mesh (node_after C (configure cfg n) w response)
        = fst (ConvertCloudToMesh C
                 (output_directory cfg ++ "03-ObjectCandidate-0")%string c w5) /\
        world_after C (configure cfg n) w response
        = snd (ConvertCloudToMesh C
                 (output_directory cfg ++ "03-ObjectCandidate-0")%string c w5) /\
        success (responded C (configure cfg n) w response) = true).
Proof.
  split.
  - destruct (trace_observations C (configure cfg n) w response)
      as (_ & _ & _ & Hr & Ho). auto.
  - intros c H.
    assert (extracted C (configure cfg n) w <> []) as Hne by congruence.
    exists (world (loop_entry C (configure cfg n) w)).
    pose proof (loop_entry_replays C (configure cfg n) w) as Hrep.
    unfold trace, node_after, world_after, responded.
    rewrite (service_call_candidates C (configure cfg n) w response Hne).
    rewrite H, mesh_loop_cons, mesh_loop_nil, mesh_pass_eq.
    unfold loop_entry, after_extraction in *. rewrite H in *.
    cbn in *. auto.
Qed.

(** C10: after a run with N >= 1 candidates the log ends with the call to
    the mesh builder for the candidate at index N - 1, made in the world the
    calls before it left, the N-th call to the mesh builder of the run.
    The node then holds the unchanged output directory, the candidate
    sequence, the accumulated cloud and, in its one mesh field, the mesh
    that call returned; the world is the one that call left.  No field
    holds the mesh of an earlier candidate. *)
Theorem operating_mesh_holds_last_candidate n w response :
  extracted C n w <> [] ->
  exists c before w',
    nth_error (extracted C n w) (List.length (extracted C n w) - 1) = Some c /\
    replays C w before w' /\
    trace C n w response
    = before
      ++ [EvConvertCloudToMesh
            (m_output_directory n ++ "03-ObjectCandidate-"
               ++ to_string (Z.of_nat (List.length (extracted C n w) - 1)))%string
            c
            (fst (ConvertCloudToMesh C
                    (m_output_directory n ++ "03-ObjectCandidate-"
                       ++ to_string
                            (Z.of_nat (List.length (extracted C n w) - 1)))%string
                    c w'))] /\
    List.length (mesh_calls (trace C n w response))
    = List.length (extracted C n w) /\
    world_after C n w response
    = snd (ConvertCloudToMesh C
             (m_output_directory n ++ "03-ObjectCandidate-"
                ++ to_string (Z.of_nat (List.length (extracted C n w) - 1)))%string
             c w') /\
    node_after C n w response
    = {| m_output_directory := m_output_directory n;
         m_object_candidates := extracted C n w;
         m_resulting_cloud := accumulated C w;
         m_operating_mesh :=
           fst (ConvertCloudToMesh C
                  (m_output_directory n ++ "03-ObjectCandidate-"
                     ++ to_string
                          (Z.of_nat (List.length (extracted C n w) - 1)))%string
                  c w') |}.
Proof.
  intros Hne.
  destruct (trace_mesh_calls C n w response) as (Hlen & _).
  unfold trace, node_after, world_after in *.
  rewrite (service_call_candidates C n w response Hne) in *. cbn [snd] in *.
  destruct (extracted C n w) as [|c0 cs] eqn:E; [congruence|].
  destruct (exists_last Hne) as (init & c & Hsplit).
  rewrite Hsplit in *.
  set (entry := loop_entry C n w) in *.
  set (m' := snd (mesh_loop C 0 init entry)).
  assert (List.length (init ++ [c]) - 1 = List.length init)%nat as Hn1
    by (rewrite length_app; cbn; lia).
  destruct (mesh_loop_frame C init 0 entry) as (Hd & Hc & Hr).
  fold m' in Hd, Hc, Hr.
  assert (m_output_directory (node entry) = m_output_directory n) as Hdn
    by reflexivity.
  assert (m_object_candidates (node entry) = extracted C n w) as Hcn
    by reflexivity.
  assert (m_resulting_cloud (node entry) = accumulated C w) as Hrn
    by reflexivity.
  exists c, (calls m'), (world m').
  rewrite Hn1.
  rewrite mesh_loop_snoc in Hlen |- *. fold m' in Hlen |- *.
  rewrite mesh_pass_eq in Hlen |- *.
  cbn [node world calls] in Hlen |- *.
  rewrite Z.add_0_l, Hd, Hdn in Hlen |- *.
  split; [now rewrite nth_error_app2, Nat.sub_diag by lia|].
  split; [apply mesh_loop_replays, loop_entry_replays|].
  split; [reflexivity|]. split; [exact Hlen|]. split; [reflexivity|].
  unfold set_m_operating_mesh. rewrite Hd, Hc, Hr, Hdn, Hcn, Hrn, E.
  reflexivity.
Qed.

End MeshField.

(** ** Runs on the two scenes *)

Lemma success_ignores_candidate_states_witness :
  (success (responded Scene.collaborators (Scene.fresh "/tmp/out/")
                      (Scene.world_of [Scene.frame_speck]) {| success := false |})
   = true
   <-> extracted Scene.collaborators (Scene.fresh "/tmp/out/")
                 (Scene.world_of [Scene.frame_speck]) <> []) /\
  List.length
    (candidate_states Scene.empty_mesh
       (trace Scene.collaborators (Scene.fresh "/tmp/out/")
              (Scene.world_of [Scene.frame_speck]) {| success := false |}))
  = List.length
      (extracted Scene.collaborators (Scene.fresh "/tmp/out/")
                 (Scene.world_of [Scene.frame_speck])) /\
  (forall C' : Collaborators Scene.PointCloud Scene.PCLMesh Scene.World,
      AccumulatePointClouds C' = AccumulatePointClouds Scene.collaborators ->
      WriteToPCD C' = WriteToPCD Scene.collaborators ->
      ExtractCandidateObjects C' = ExtractCandidateObjects Scene.collaborators ->
      responded C' (Scene.fresh "/tmp/out/")
                (Scene.world_of [Scene.frame_speck]) {| success := false |}
      = responded Scene.collaborators (Scene.fresh "/tmp/out/")
                  (Scene.world_of [Scene.frame_speck]) {| success := false |}).
Proof.
  apply (success_ignores_candidate_states Scene.collaborators Scene.empty_mesh).
Defined.

Lemma single_candidate_meshed_not_repaired_witness :
  extracted Scene.collaborators
            (configure (Scene.configuration 1 DetectAndRepair) (Scene.fresh ""))
            (Scene.world_of [Scene.frame_box]) = [Scene.box] /\
  repaired_meshes
    (trace Scene.collaborators
       (configure (Scene.configuration 1 DetectAndRepair) (Scene.fresh ""))
       (Scene.world_of [Scene.frame_box]) {| success := false |}) = [] /\
  exists w5,
    m_operating_mesh
      (node_after Scene.collaborators
         (configure (Scene.configuration 1 DetectAndRepair) (Scene.fresh ""))
         (Scene.world_of [Scene.frame_box]) {| success := false |})
    = fst (Scene.convert "/tmp/out/03-ObjectCandidate-0" Scene.box w5) /\
    world_after Scene.collaborators
      (configure (Scene.configuration 1 DetectAndRepair) (Scene.fresh ""))
      (Scene.world_of [Scene.frame_box]) {| success := false |}
    = snd (Scene.convert "/tmp/out/03-ObjectCandidate-0" Scene.box w5) /\
    success
      (responded Scene.collaborators
         (configure (Scene.configuration 1 DetectAndRepair) (Scene.fresh ""))
         (Scene.world_of [Scene.frame_box]) {| success := false |}) = true.
Proof.
  destruct (single_candidate_meshed_not_repaired Scene.collaborators
              (Scene.configuration 1 DetectAndRepair) (Scene.fresh "")
              (Scene.world_of [Scene.frame_box]) {| success := false |})
    as ((_ & Hrepaired) & Hone).
  destruct (Hone Scene.box eq_refl) as (w5 & _ & _ & Hmesh & Hworld & Hsuccess).
  split; [reflexivity|]. split; [exact Hrepaired|].
  exists w5. split; [exact Hmesh|]. split; [exact Hworld|exact Hsuccess].
Defined.

Lemma operating_mesh_holds_last_candidate_witness :
  extracted Scene.collaborators (Scene.fresh "/tmp/out/")
            (Scene.world_of [Scene.frame_box_cone]) <> [] /\
  exists before w',
    replays Scene.collaborators (Scene.world_of [Scene.frame_box_cone]) before w' /\
    trace Scene.collaborators (Scene.fresh "/tmp/out/")
          (Scene.world_of [Scene.frame_box_cone]) {| success := false |}
    = before
      ++ [EvConvertCloudToMesh "/tmp/out/03-ObjectCandidate-1" Scene.box
            (fst (Scene.convert "/tmp/out/03-ObjectCandidate-1" Scene.box w'))] /\
    m_operating_mesh
      (node_after Scene.collaborators (Scene.fresh "/tmp/out/")
                  (Scene.world_of [Scene.frame_box_cone]) {| success := false |})
    = fst (Scene.convert "/tmp/out/03-ObjectCandidate-1" Scene.box w').
Proof.
  assert (extracted Scene.collaborators (Scene.fresh "/tmp/out/")
                    (Scene.world_of [Scene.frame_box_cone]) <> []) as Hne
    by (vm_compute; discriminate).
  split; [exact Hne|].
  destruct (operating_mesh_holds_last_candidate Scene.collaborators
              (Scene.fresh "/tmp/out/") (Scene.world_of [Scene.frame_box_cone])
              {| success := false |} Hne)
    as (c & before & w' & Hc & Hrep & Htrace & _ & _ & Hnode).
  injection Hc as <-.
  exists before, w'. split; [exact Hrep|]. split; [exact Htrace|].
  rewrite Hnode. reflexivity.
Defined.



(** A candidate too small to mesh is no exception: the mesh builder returns
    the empty mesh for the stray point and the loop goes on to the box. *)
Example failing_scene_degenerate_then_valid :
  fst (Throwing.service_call FailingScene.collaborators
         (Scene.fresh "/tmp/out/") (Scene.world_of [Scene.frame_box_speck])
         {| success := false |})
  = Throwing.Returns true /\
  Throwing.conversions
    (Throwing.calls
       (snd (Throwing.service_call FailingScene.collaborators
               (Scene.fresh "/tmp/out/") (Scene.world_of [Scene.frame_box_speck])
               {| success := false |})))
  = [("/tmp/out/03-ObjectCandidate-0"%string, Scene.speck);
     ("/tmp/out/03-ObjectCandidate-1"%string, Scene.box)].
Proof. split; reflexivity. Qed.

Lemma accumulation_failure_aborts_run_witness :
  fst (Throwing.AccumulatePointClouds FailingScene.collaborators 1
         (Scene.world_of []))
  = Throwing.Throws FailingScene.InsufficientFrames /\
  (fst (Throwing.service_call FailingScene.collaborators
          (Scene.fresh "/tmp/out/") (Scene.world_of []) {| success := false |})
   = Throwing.Throws FailingScene.InsufficientFrames /\
   Throwing.calls
     (snd (Throwing.service_call FailingScene.collaborators
             (Scene.fresh "/tmp/out/") (Scene.world_of []) {| success := false |}))
   = [Throwing.CallAccumulatePointClouds 1] /\
   forallb (fun c => negb (Throwing.extracts_or_meshes c))
     (Throwing.calls
        (snd (Throwing.service_call FailingScene.collaborators
                (Scene.fresh "/tmp/out/") (Scene.world_of [])
                {| success := false |}))) = true /\
   Throwing.world
     (snd (Throwing.service_call FailingScene.collaborators
             (Scene.fresh "/tmp/out/") (Scene.world_of []) {| success := false |}))
   = snd (Throwing.AccumulatePointClouds FailingScene.collaborators 1
            (Scene.world_of [])) /\
   Throwing.node
     (snd (Throwing.service_call FailingScene.collaborators
             (Scene.fresh "/tmp/out/") (Scene.world_of []) {| success := false |}))
   = Scene.fresh "/tmp/out/" /\
   Throwing.response
     (snd (Throwing.service_call FailingScene.collaborators
             (Scene.fresh "/tmp/out/") (Scene.world_of []) {| success := false |}))
   = {| success := false |}).
Proof.
  split.
  - reflexivity.
  - apply (accumulation_failure_aborts_run FailingScene.collaborators).
    reflexivity.
Defined.
